(** * Ord GPT agent memory: the context broker over its memory store

    A shallow embedding of [src/Ord/agent_memory.py].  The module is glue
    code over the [agentmemory] store library: every function builds a
    metadata dictionary, calls store operations in sequence and shapes the
    result.  The broker functions below follow the Python text line by line
    in a state monad over the store; the store operations themselves are
    not part of the repository and are modelled from the specification. *)

From Stdlib Require Import QArith.
From stdpp Require Import gmap strings list fin_maps sorting pretty.

Local Open Scope string_scope.
Local Open Scope Z_scope.
Local Open Scope list_scope.

(** ** Data model *)

(** Values found in metadata dictionaries: strings, integers (the epoch)
    and Python's [None] (what [dict.get] gives for a missing key). *)
Inductive pyval :=
| PStr (s : string)
| PInt (z : Z)
| PNone.

#[global] Instance pyval_eq_dec : EqDecision pyval.
Proof. solve_decision. Defined.

(** A memory as the store hands it to the broker: a dictionary with the
    keys ["id"], ["document"] and ["metadata"]. *)
Record memory := Memory {
  id : nat;
  document : string;
  metadata : gmap string pyval
}.

(** The [sort_order] argument of [get_memories]. *)
Inductive sort_order := Asc | Desc.

(** What the store was made to do, in program order.  The journal is ghost
    state: no broker function reads it; it is there to speak about the
    order of writes and about the value of the epoch counter at the time
    of a write. *)
Inductive effect :=
| EpochReset
| EpochIncremented
| Created (category : string) (i : nat) (text : string)
          (md : gmap string pyval)
| Updated (category : string) (i : nat) (md : gmap string pyval)
| EventLogged (text : string) (md : gmap string pyval).

#[global] Instance effect_eq_dec : EqDecision effect.
Proof. solve_decision. Defined.

(** The world the broker runs in: the store's categories (each a list of
    [(text, metadata)] rows in insertion order, a row's identifier being
    its position), the store's event log, the store's epoch counter, the
    wall clock read by [datetime.now()], and the journal. *)
Record Store := mkStore {
  collections : gmap string (list (string * gmap string pyval));
  events : list (string * gmap string pyval);
  epoch : Z;
  clock : nat;
  journal : list (Z * effect)
}.

Definition empty_store : Store := mkStore ∅ [] 0 0 [].

Definition collection (category : string) (s : Store)
  : list (string * gmap string pyval) :=
  default [] (collections s !! category).

(** The rows of a category as the broker sees them, oldest first. *)
Definition rows (category : string) (s : Store) : list memory :=
  imap (λ i row, Memory i row.1 row.2) (collection category s).

(** The effects appended to the journal between two states. *)
Definition effects_since (s s' : Store) : list effect :=
  (drop (length (journal s)) (journal s')).*2.

(** ** The state monad of the broker *)

Definition M (A : Type) : Type := Store → A * Store.

#[global] Instance M_ret : MRet M := λ A a s, (a, s).
#[global] Instance M_bind : MBind M :=
  λ A B f m s, let '(a, s') := m s in f a s'.

(** Python's [for x in xs: body(x)]. *)
Fixpoint for_each {A : Type} (body : A → M unit) (xs : list A) : M unit :=
  match xs with
  | [] => mret tt
  | x :: xs' => _ ← body x; for_each body xs'
  end.

Definition exec {A : Type} (m : M A) (s : Store) : Store := (m s).2.
Definition eval {A : Type} (m : M A) (s : Store) : A := (m s).1.

(** ** Categories of Ord GPT's memory *)

Definition CATEGORY_CONVERSATIONS : string := "ord_conversations".
Definition CATEGORY_BITCOIN_FACTS : string := "bitcoin_facts".
Definition CATEGORY_ORDINALS_KNOWLEDGE : string := "ordinals_knowledge".
Definition CATEGORY_USER_PREFERENCES : string := "user_preferences".

(** What the store decides on its own and the broker never sees: how
    similar two texts are (a rational here, so that the threshold 0.85 is
    [85 # 100]), how [datetime.now().isoformat()] prints the clock, and the
    defaults of the two arguments the broker leaves out ([n_results] of
    [search_memory] in [record_user_preference], [sort_order] of
    [get_memories] in [get_user_preferences]). *)
Class StoreParams := {
  similarity : string → string → Q;
  isoformat : nat → string;
  default_n_results : nat;
  default_sort_order : sort_order
}.

Section Broker.

Context {lib : StoreParams}.

(** ** The store operations the broker imports from [agentmemory] *)

Definition log (e : effect) (s : Store) : Store :=
  mkStore (collections s) (events s) (epoch s) (clock s)
          (journal s ++ [(epoch s, e)]).

Definition put_collection (category : string)
    (l : list (string * gmap string pyval)) (s : Store) : Store :=
  mkStore (<[category := l]> (collections s)) (events s) (epoch s) (clock s)
          (journal s).

(** Modelled from the spec: [create_memory] of the store library, "create
    a record in a category with text + metadata".  The record is appended
    to its category; its identifier is its position. *)
Definition create_memory (category text : string) (md : gmap string pyval)
  : M nat := λ s,
  let i := length (collection category s) in
  (i, log (Created category i text md)
          (put_collection category (collection category s ++ [(text, md)]) s)).

(** A record passes [filter_metadata] when it carries every key of the
    filter with the filter's value. *)
Definition matches (filter_metadata : gmap string pyval) (m : memory) : Prop :=
  map_Forall (λ k v, metadata m !! k = Some v) filter_metadata.

#[global] Instance matches_dec f m : Decision (matches f m).
Proof. unfold matches. apply _. Defined.

(** Modelled from the spec: [get_memories] of the store library, "list
    records in a category, optionally metadata-filtered, with a result cap
    and sort order (ascending/descending by recency)". *)
Definition get_memories (category : string)
    (filter_metadata : gmap string pyval) (n_results : nat)
    (order : sort_order) : M (list memory) := λ s,
  let found := filter (matches filter_metadata) (rows category s) in
  (take n_results (match order with Desc => reverse found | Asc => found end),
   s).

(** [closer q m1 m2]: [m1] ranks no lower than [m2] for the query [q]. *)
Definition closer (query : string) (m1 m2 : memory) : Prop :=
  Qle_bool (similarity query (document m2))
           (similarity query (document m1)) = true.

#[global] Instance closer_dec q : RelDecision (closer q).
Proof. intros m1 m2. unfold closer. apply _. Defined.

(** Modelled from the spec: [search_memory] of the store library,
    "similarity-search records in a category by a query string with a
    result cap": the (optionally metadata-filtered) records, best match
    first, cut at the cap. *)
Definition search_memory (category query : string)
    (filter_metadata : gmap string pyval) (n_results : nat)
  : M (list memory) := λ s,
  (take n_results
        (merge_sort (closer query)
                    (filter (matches filter_metadata) (rows category s))),
   s).

(** [near_duplicate t text m]: [m]'s text is at least [t]-similar to [text]. *)
Definition near_duplicate (threshold : Q) (text : string) (m : memory) : Prop :=
  Qle_bool threshold (similarity text (document m)) = true.

#[global] Instance near_duplicate_dec t x m : Decision (near_duplicate t x m).
Proof. unfold near_duplicate. apply _. Defined.

(** Modelled from the spec: [create_unique_memory] of the store library,
    "create a record only if no near-duplicate (by similarity threshold)
    exists in the category"; "near-duplicate text is treated as the same
    record rather than inserted again". *)
Definition create_unique_memory (category text : string)
    (md : gmap string pyval) (threshold : Q) : M unit := λ s,
  match filter (near_duplicate threshold text) (rows category s) with
  | [] => (_ ← create_memory category text md; mret tt) s
  | _ :: _ => (tt, s)
  end.

(** Modelled from the spec: [update_memory] of the store library, "update
    a single record by category + identifier"; the keys given are written
    over the record's metadata "in place, leaving all other fields
    untouched". *)
Definition update_memory (category : string) (i : nat)
    (md : gmap string pyval) : M unit := λ s,
  (tt, log (Updated category i md)
           (put_collection category
              (alter (λ row, (row.1, md ∪ row.2)) i (collection category s))
              s)).

(** Modelled from the spec: [count_memories], "count records in a
    category". *)
Definition count_memories (category : string) : M nat := λ s,
  (length (collection category s), s).

(** Modelled from the spec: the store's "process-wide epoch counter:
    reset, increment, read", "reset to zero at broker initialization". *)
Definition reset_epoch : M unit := λ s,
  (tt, log EpochReset
           (mkStore (collections s) (events s) 0 (clock s) (journal s))).

(** Modelled from the spec: the counter's "increment". *)
Definition increment_epoch : M unit := λ s,
  (tt, log EpochIncremented
           (mkStore (collections s) (events s) (epoch s + 1) (clock s)
                    (journal s))).

(** Modelled from the spec: the counter's "read". *)
Definition get_epoch : M Z := λ s, (epoch s, s).

(** Modelled from the spec: [create_event], the store's "append-only event
    log write"; the epoch is "stamped onto every memory/event", and as the
    broker passes no epoch with an event, the store stamps it. *)
Definition create_event (text : string) (md : gmap string pyval) : M unit :=
  λ s,
  let md' := <["epoch" := PInt (epoch s)]> md in
  (tt, log (EventLogged text md')
           (mkStore (collections s) (events s ++ [(text, md')]) (epoch s)
                    (clock s) (journal s))).

(** [datetime.now().isoformat()]: reads the clock, which has moved on by
    the next reading. *)
Definition datetime_now_isoformat : M pyval := λ s,
  (PStr (isoformat (clock s)),
   mkStore (collections s) (events s) (epoch s) (S (clock s)) (journal s)).

(** [d.get(key, default)] on a metadata dictionary. *)
Definition dict_get (md : gmap string pyval) (key : string) (default : pyval)
  : pyval :=
  match md !! key with Some v => v | None => default end.

(** ** The broker: [agent_memory.py] *)

Definition bitcoin_facts : list string := [
  "Bitcoin was created by Satoshi Nakamoto in 2009.";
  "Bitcoin has a maximum supply of 21 million coins.";
  "Bitcoin uses a proof-of-work consensus mechanism.";
  "Bitcoin blocks are mined approximately every 10 minutes.";
  "The smallest unit of Bitcoin is called a satoshi, equal to 0.00000001 BTC."
].

Definition ordinals_knowledge : list string := [
  "Ordinals are a way to assign unique identifiers to individual satoshis in Bitcoin.";
  "Ordinals allow for the creation of digital artifacts on Bitcoin through inscriptions.";
  "Ordinal theory was developed by Casey Rodarmor.";
  "Ordinal inscriptions store data directly on the Bitcoin blockchain.";
  "Rare satoshis include those from the genesis block and block reward halving events."
].

(** One turn of a seeding loop: [create_memory(category, text, metadata=
    {"timestamp": ..., "source": "initial_seeding"})]. *)
Definition seed_one (category text : string) : M unit :=
  ts ← datetime_now_isoformat;
  _ ← create_memory category text
        {[ "timestamp" := ts; "source" := PStr "initial_seeding" ]};
  mret tt.

Definition seed_initial_knowledge : M unit :=
  _ ← for_each (seed_one CATEGORY_BITCOIN_FACTS) bitcoin_facts;
  for_each (seed_one CATEGORY_ORDINALS_KNOWLEDGE) ordinals_knowledge.

Definition initialize_memory : M unit :=
  _ ← reset_epoch;
  _ ← get_epoch;
  conversation_count ← count_memories CATEGORY_CONVERSATIONS;
  facts_count ← count_memories CATEGORY_BITCOIN_FACTS;
  ordinals_count ← count_memories CATEGORY_ORDINALS_KNOWLEDGE;
  preferences_count ← count_memories CATEGORY_USER_PREFERENCES;
  if decide (ordinals_count = 0%nat) then seed_initial_knowledge
  else mret tt.

Definition record_user_message (user_id message : string) : M unit :=
  ts ← datetime_now_isoformat;
  e ← get_epoch;
  _ ← create_memory CATEGORY_CONVERSATIONS message
        {[ "timestamp" := ts; "user_id" := PStr user_id;
           "speaker" := PStr "user"; "epoch" := PInt e ]};
  create_event ("User " +:+ user_id +:+ " said: " +:+ message)
    {[ "user_id" := PStr user_id; "message_type" := PStr "user_message" ]}.

Definition record_agent_response (user_id message : string) : M unit :=
  ts ← datetime_now_isoformat;
  e ← get_epoch;
  _ ← create_memory CATEGORY_CONVERSATIONS message
        {[ "timestamp" := ts; "user_id" := PStr user_id;
           "speaker" := PStr "ord_gpt"; "epoch" := PInt e ]};
  create_event
    ("Ord GPT responded to " +:+ user_id +:+ ": "
       +:+ String.substring 0 50 message +:+ "...")
    {[ "user_id" := PStr user_id; "message_type" := PStr "agent_response" ]}.

Definition record_bitcoin_fact (fact source : string) : M unit :=
  ts ← datetime_now_isoformat;
  e ← get_epoch;
  create_unique_memory CATEGORY_BITCOIN_FACTS fact
    {[ "timestamp" := ts; "source" := PStr source; "epoch" := PInt e ]}
    (85 # 100).

Definition record_ordinals_knowledge (knowledge source : string) : M unit :=
  ts ← datetime_now_isoformat;
  e ← get_epoch;
  create_unique_memory CATEGORY_ORDINALS_KNOWLEDGE knowledge
    {[ "timestamp" := ts; "source" := PStr source; "epoch" := PInt e ]}
    (85 # 100).

Definition record_user_preference
    (user_id preference_type preference_value : string) : M unit :=
  existing_prefs ← search_memory CATEGORY_USER_PREFERENCES preference_type
                      {[ "user_id" := PStr user_id ]} default_n_results;
  match existing_prefs with
  | first :: _ =>
      ts ← datetime_now_isoformat;
      update_memory CATEGORY_USER_PREFERENCES (id first)
        {[ "value" := PStr preference_value; "timestamp" := ts ]}
  | [] =>
      ts ← datetime_now_isoformat;
      _ ← create_memory CATEGORY_USER_PREFERENCES preference_type
            {[ "user_id" := PStr user_id; "value" := PStr preference_value;
               "timestamp" := ts ]};
      mret tt
  end.

(** An entry of the conversation handed back: [{"speaker": .., "text": ..}]. *)
Record turn := Turn { speaker : pyval; text : string }.

(** The body of the formatting loop:
    [{"speaker": memory["metadata"].get("speaker", "unknown"),
      "text": memory["document"]}]. *)
Definition as_turn (m : memory) : turn :=
  Turn (dict_get (metadata m) "speaker" (PStr "unknown")) (document m).

Definition get_conversation_history (user_id : string) (limit : nat)
  : M (list turn) :=
  memories ← get_memories CATEGORY_CONVERSATIONS
                {[ "user_id" := PStr user_id ]} limit Desc;
  mret (as_turn <$> reverse memories).

Definition search_bitcoin_facts (query : string) (limit : nat)
  : M (list memory) :=
  search_memory CATEGORY_BITCOIN_FACTS query ∅ limit.

Definition search_ordinals_knowledge (query : string) (limit : nat)
  : M (list memory) :=
  search_memory CATEGORY_ORDINALS_KNOWLEDGE query ∅ limit.

(** The body of the folding loop:
    [preferences[memory["document"]] = memory["metadata"].get("value")]. *)
Definition add_preference (preferences : gmap string pyval) (m : memory)
  : gmap string pyval :=
  <[document m := dict_get (metadata m) "value" PNone]> preferences.

Definition get_user_preferences (user_id : string)
  : M (gmap string pyval) :=
  memories ← get_memories CATEGORY_USER_PREFERENCES
                {[ "user_id" := PStr user_id ]} 100 default_sort_order;
  mret (foldl add_preference ∅ memories).

(** The context dictionary [generate_context] returns. *)
Record context := Context {
  conversation_history : list turn;
  relevant_bitcoin_facts : list string;
  relevant_ordinals_knowledge : list string;
  user_preferences : gmap string pyval;
  current_epoch : Z
}.

Definition generate_context (user_id current_message : string) : M context :=
  _ ← increment_epoch;
  _ ← record_user_message user_id current_message;
  history ← get_conversation_history user_id 5;
  facts ← search_bitcoin_facts current_message 3;
  knowledge ← search_ordinals_knowledge current_message 3;
  user_prefs ← get_user_preferences user_id;
  e ← get_epoch;
  mret (Context history (document <$> facts) (document <$> knowledge)
                user_prefs e).

Definition process_message (user_id message : string) : M context :=
  generate_context user_id message.

(** [if new_facts:] is false for [None] and for the empty list alike. *)
Definition truthy {A : Type} (xs : option (list A)) : list A :=
  match xs with Some l => l | None => [] end.

Definition record_response (user_id response : string)
    (new_facts new_knowledge : option (list string)) : M unit :=
  _ ← record_agent_response user_id response;
  _ ← for_each (λ fact, record_bitcoin_fact fact "conversation")
               (truthy new_facts);
  for_each (λ knowledge, record_ordinals_knowledge knowledge "conversation")
           (truthy new_knowledge).

(** ** Notions used in the statements *)

(** The conversation records of a user, oldest first. *)
Definition conversation_of (user_id : string) (s : Store) : list memory :=
  filter (matches {[ "user_id" := PStr user_id ]})
         (rows CATEGORY_CONVERSATIONS s).

(** The rows a seeding loop writes for [texts], the clock reading [t0]
    when the loop starts. *)
Definition seeded (texts : list string) (t0 : nat)
  : list (string * gmap string pyval) :=
  imap (λ i text,
          (text, {[ "timestamp" := PStr (isoformat (t0 + i));
                    "source" := PStr "initial_seeding" ]}))
       texts.

(** The common shape of [record_bitcoin_fact] and
    [record_ordinals_knowledge]: one call of the store's deduplicating
    insert, with threshold 0.85. *)
Definition record_unique (category text source : string) : M unit :=
  ts ← datetime_now_isoformat;
  e ← get_epoch;
  create_unique_memory category text
    {[ "timestamp" := ts; "source" := PStr source; "epoch" := PInt e ]}
    (85 # 100).

(** A journal entry written by the deduplicating insert of one of [texts]:
    a record of [category] stamped with [source] and with the epoch at the
    time of writing. *)
Definition unique_write (category source : string) (texts : list string)
    (entry : Z * effect) : Prop :=
  ∃ i text md,
    entry.2 = Created category i text md
    ∧ text ∈ texts
    ∧ md !! "source" = Some (PStr source)
    ∧ md !! "epoch" = Some (PInt entry.1).

(** A journal entry written by a seeding loop: a record of [category]
    with source ["initial_seeding"] and no epoch. *)
Definition seed_write (category : string) (entry : Z * effect) : Prop :=
  ∃ i text md,
    entry.2 = Created category i text md
    ∧ md !! "epoch" = None
    ∧ md !! "source" = Some (PStr "initial_seeding").

(** The order in which [get_memories] lists what it found. *)
Definition in_order (order : sort_order) (found : list memory) : list memory :=
  match order with Desc => reverse found | Asc => found end.

(** The preference records of a user, oldest first. *)
Definition preferences_of (user_id : string) (s : Store) : list memory :=
  filter (matches {[ "user_id" := PStr user_id ]})
         (rows CATEGORY_USER_PREFERENCES s).

(** The preference records of a user whose text is a given type. *)
Definition preferences_of_type (user_id preference_type : string) (s : Store)
  : list memory :=
  filter (λ m, document m = preference_type) (preferences_of user_id s).

(** ** Sequences of broker operations *)

(** The calls a client of the module can make. *)
Inductive op :=
| InitializeMemory
| ProcessMessage (user_id message : string)
| RecordResponse (user_id response : string)
                 (new_facts new_knowledge : option (list string))
| RecordUserMessage (user_id message : string)
| RecordAgentResponse (user_id message : string)
| RecordBitcoinFact (fact source : string)
| RecordOrdinalsKnowledge (knowledge source : string)
| RecordUserPreference (user_id preference_type preference_value : string)
| GetConversationHistory (user_id : string) (limit : nat)
| SearchBitcoinFacts (query : string) (limit : nat)
| SearchOrdinalsKnowledge (query : string) (limit : nat)
| GetUserPreferences (user_id : string).

Definition is_process_message (o : op) : bool :=
  match o with ProcessMessage _ _ => true | _ => false end.

Definition run_op (o : op) : M unit :=
  match o with
  | InitializeMemory => initialize_memory
  | ProcessMessage u m => _ ← process_message u m; mret tt
  | RecordResponse u r nf nk => record_response u r nf nk
  | RecordUserMessage u m => record_user_message u m
  | RecordAgentResponse u m => record_agent_response u m
  | RecordBitcoinFact f src => record_bitcoin_fact f src
  | RecordOrdinalsKnowledge k src => record_ordinals_knowledge k src
  | RecordUserPreference u t v => record_user_preference u t v
  | GetConversationHistory u l => _ ← get_conversation_history u l; mret tt
  | SearchBitcoinFacts q l => _ ← search_bitcoin_facts q l; mret tt
  | SearchOrdinalsKnowledge q l => _ ← search_ordinals_knowledge q l; mret tt
  | GetUserPreferences u => _ ← get_user_preferences u; mret tt
  end.

Definition run_ops (ops : list op) : M unit := for_each run_op ops.


(** A created record or logged event carries, under ["epoch"], the value
    the counter had when it was written. *)
Definition stamped (entry : Z * effect) : Prop :=
  match entry.2 with
  | Created _ _ _ md | EventLogged _ md =>
      md !! "epoch" = Some (PInt entry.1)
  | _ => True
  end.

#[global] Instance stamped_dec entry : Decision (stamped entry).
Proof. unfold stamped. destruct entry.2; apply _. Defined.



(** ** What a loop of deduplicating inserts stores *)

(** The rows a loop [for x in items: record_...(x, source)] appends to a
    category holding [coll], the clock reading [t0] and the epoch [e] when
    the loop starts: an item goes in, stamped with the clock reading of its
    turn, the source and the epoch, unless a row of the category (an old
    one or one the loop has appended) is at least 0.85 similar to it. *)
Fixpoint unique_inserts (source : string) (items : list string) (t0 : nat)
    (e : Z) (coll : list (string * gmap string pyval))
  : list (string * gmap string pyval) :=
  match items with
  | [] => []
  | x :: items' =>
      let md := {[ "timestamp" := PStr (isoformat t0);
                   "source" := PStr source; "epoch" := PInt e ]} in
      match filter (near_duplicate (85 # 100) x)
                   (imap (λ i row, Memory i row.1 row.2) coll) with
      | [] => (x, md) :: unique_inserts source items' (S t0) e
                           (coll ++ [(x, md)])
      | _ :: _ => unique_inserts source items' (S t0) e coll
      end
  end.

(** The journal entries for rows appended to a category of [n] records
    while the epoch is [e]. *)
Definition created_entries (category : string) (e : Z) (n : nat)
    (added : list (string * gmap string pyval)) : list (Z * effect) :=
  imap (λ i row, (e, Created category (n + i) row.1 row.2)) added.

(** ** The specification's wording, for comparison with the code *)

(** "[recordAgentResponse(userId, text)]: same shape with speaker =
    "agent"": the call appends a conversation record whose speaker is
    ["agent"]. *)
Definition spec_agent_speaker (user_id message : string) (s : Store) : Prop :=
  ∃ md,
    collection CATEGORY_CONVERSATIONS
      (exec (record_agent_response user_id message) s)
    = collection CATEGORY_CONVERSATIONS s ++ [(message, md)]
    ∧ md !! "speaker" = Some (PStr "agent").



(** ** Notions used for whole runs of the broker *)

(** The texts of a category, oldest first. *)
Definition texts (category : string) (s : Store) : list string :=
  (collection category s).*1.

(** How many of the operations are [process_message] calls. *)
Definition processed (ops : list op) : nat :=
  length (filter (λ o, is_process_message o = true) ops).

Definition is_record_user_preference (o : op) : bool :=
  match o with RecordUserPreference _ _ _ => true | _ => false end.

(** What [update_memory] does to one memory of the category it is called
    on: the memory with the identifier gets the keys written over its
    metadata, the others stay. *)
Definition updated (i : nat) (md : gmap string pyval) (m : memory) : memory :=
  if decide (id m = i) then Memory (id m) (document m) (md ∪ metadata m)
  else m.

(** The value [get_user_preferences] files a preference record under. *)
Definition filed_value (m : memory) : pyval :=
  dict_get (metadata m) "value" PNone.

(** What one operation may do to the store, as far as the four categories,
    the event log and the epoch go: the conversations, the facts and the
    knowledge only grow at the end; the preferences keep their texts, and
    are touched by [record_user_preference] alone; every conversation
    record comes with one event; the epoch is reset by initialization,
    incremented by [process_message] and otherwise kept. *)
Definition op_summary (o : op) (s s' : Store) : Prop :=
  ∃ ac af ak ev,
    collection CATEGORY_CONVERSATIONS s'
      = collection CATEGORY_CONVERSATIONS s ++ ac
    ∧ collection CATEGORY_BITCOIN_FACTS s'
      = collection CATEGORY_BITCOIN_FACTS s ++ af
    ∧ collection CATEGORY_ORDINALS_KNOWLEDGE s'
      = collection CATEGORY_ORDINALS_KNOWLEDGE s ++ ak
    ∧ texts CATEGORY_USER_PREFERENCES s
        `prefix_of` texts CATEGORY_USER_PREFERENCES s'
    ∧ (is_record_user_preference o = false →
       collection CATEGORY_USER_PREFERENCES s'
       = collection CATEGORY_USER_PREFERENCES s)
    ∧ (∀ c, c ≠ CATEGORY_CONVERSATIONS → c ≠ CATEGORY_BITCOIN_FACTS →
            c ≠ CATEGORY_ORDINALS_KNOWLEDGE →
            c ≠ CATEGORY_USER_PREFERENCES →
            collection c s' = collection c s)
    ∧ events s' = events s ++ ev
    ∧ length ev = length ac
    ∧ epoch s' = match o with
                 | InitializeMemory => 0
                 | ProcessMessage _ _ => epoch s + 1
                 | _ => epoch s
                 end.

End Broker.

(** A concrete store library for examples: texts are similar only when
    equal, and the clock prints as its tick count. *)
Definition same_text (a b : string) : Q := if decide (a = b) then 1%Q else 0%Q.
Definition tick_text (t : nat) : string := "t" +:+ pretty t.
Definition demo_params : StoreParams :=
  Build_StoreParams same_text tick_text 5 Desc.

(** A store holding one Bitcoin fact. *)
Definition one_fact_store : Store :=
  exec (record_bitcoin_fact (lib := demo_params)
          "Bitcoin has a maximum supply of 21 million coins." "conversation")
       empty_store.

(** A store in which user ["u1"] holds one preference, of type
    ["color"]. *)
Definition one_preference_store : Store :=
  exec (record_user_preference (lib := demo_params) "u1" "color" "red")
       empty_store.

(** A short session of user ["u1"]. *)
Definition demo_session : list op :=
  [ ProcessMessage "u1" "Tell me about Bitcoin Ordinals";
    RecordResponse "u1" "Ordinals number individual satoshis."
      (Some ["Bitcoin has 100 million satoshis per coin"]) None;
    RecordUserPreference "u1" "favorite_topic" "rare_satoshis";
    ProcessMessage "u1" "What are rare satoshis?" ].

(** The same session without the preference. *)
Definition demo_chat : list op :=
  [ ProcessMessage "u1" "Tell me about Bitcoin Ordinals";
    RecordResponse "u1" "Ordinals number individual satoshis."
      (Some ["Bitcoin has 100 million satoshis per coin"]) None;
    ProcessMessage "u1" "What are rare satoshis?" ].

(** ** Facts about lists used below *)

Section ListFacts.

Context {A : Type}.

Lemma StronglySorted_filter (R : relation A) (P : A → Prop)
    `{!∀ x, Decision (P x)} (l : list A) :
  StronglySorted R l → StronglySorted R (filter P l).
Proof.
  induction 1 as [|x l Hl IH Hx]; [constructor|].
  rewrite filter_cons. destruct (decide (P x)); [|assumption].
  constructor; [assumption|].
  apply Forall_forall. intros y Hy.
  apply list_elem_of_filter in Hy as [_ Hy].
  rewrite Forall_forall in Hx. by apply Hx.
Qed.

Lemma StronglySorted_drop (R : relation A) (n : nat) (l : list A) :
  StronglySorted R l → StronglySorted R (drop n l).
Proof.
  intros Hl. rewrite <- (take_drop n l) in Hl.
  by apply StronglySorted_app_1_r in Hl.
Qed.

Lemma StronglySorted_imap_lt {B : Type} (f : nat → A → B) (g : B → nat)
    (l : list A) (k : nat) :
  (∀ i x, g (f i x) = (k + i)%nat) →
  StronglySorted (λ a b, (g a < g b)%nat) (imap f l).
Proof.
  revert f k. induction l as [|x l IH]; intros f k Hg; [constructor|].
  cbn. constructor.
  - apply (IH _ (S k)). intros i y. unfold compose. rewrite Hg. lia.
  - apply Forall_forall. intros y Hy.
    apply elem_of_lookup_imap in Hy as (i & z & -> & _).
    unfold compose. rewrite !Hg. lia.
Qed.

End ListFacts.

(** Python's [text[:n]]: never longer than [n], and a prefix of [text]. *)
Lemma substring_0_length (n : nat) (text : string) :
  (String.length (String.substring 0 n text) ≤ n)%nat.
Proof.
  revert text. induction n as [|n IH]; intros [|a text]; cbn; try lia.
  specialize (IH text). lia.
Qed.

Lemma substring_0_prefix (n : nat) (text : string) :
  ∃ rest, text = String.substring 0 n text +:+ rest.
Proof.
  revert text. induction n as [|n IH]; intros [|a text].
  - by exists "".
  - by exists (String a text).
  - by exists "".
  - destruct (IH text) as [rest Hrest]. exists rest.
    change (String a text
            = String a (String.substring 0 n text +:+ rest)).
    by f_equal.
Qed.

Lemma substring_0_short (n : nat) (text : string) :
  (String.length text ≤ n)%nat → String.substring 0 n text = text.
Proof.
  revert text. induction n as [|n IH]; intros [|a text]; cbn; try done.
  - lia.
  - intros Hlen. rewrite IH; [done|lia].
Qed.

(** ** Reading a category of a store that was written to *)

Lemma collection_same (c : string) (s : Store) ev e ck j :
  collection c (mkStore (collections s) ev e ck j) = collection c s.
Proof. reflexivity. Qed.

Lemma collection_insert_eq (c : string) l cs ev e ck j :
  collection c (mkStore (<[c := l]> cs) ev e ck j) = l.
Proof. unfold collection. cbn. by rewrite lookup_insert_eq. Qed.

Lemma collection_insert_ne (c c' : string) l cs ev e ck j :
  c' ≠ c →
  collection c (mkStore (<[c' := l]> cs) ev e ck j)
  = collection c (mkStore cs ev e ck j).
Proof. intros Hc. unfold collection. cbn. by rewrite lookup_insert_ne. Qed.

Ltac store_simpl :=
  unfold log, put_collection; cbn [collections events epoch clock journal];
  repeat first
    [ rewrite collection_insert_eq
    | rewrite collection_insert_ne by done
    | rewrite collection_same ].

(** Runs a broker function on a symbolic store: the monad and the broker
    functions are unfolded, the store operations evaluated. *)
Ltac run_broker :=
  unfold exec, eval, process_message, generate_context, record_response,
    record_user_message, record_agent_response, record_bitcoin_fact,
    record_ordinals_knowledge, record_user_preference,
    get_conversation_history, search_bitcoin_facts,
    search_ordinals_knowledge, get_user_preferences;
  unfold mbind, M_bind, mret, M_ret; cbn.

Section BrokerFacts.

Context {lib : StoreParams}.

(** ** The store's rows *)

Lemma rows_oldest_first (c : string) (s : Store) :
  StronglySorted (λ a b, (id a < id b)%nat) (rows c s).
Proof. unfold rows. by apply StronglySorted_imap_lt with (k := 0%nat). Qed.

Lemma elem_of_rows (c : string) (s : Store) (m : memory) :
  m ∈ rows c s ↔ collection c s !! id m = Some (document m, metadata m).
Proof.
  unfold rows. rewrite elem_of_lookup_imap. split.
  - intros (i & [t md] & -> & Hi). done.
  - intros Hi. exists (id m), (document m, metadata m). by destruct m.
Qed.

(** [rows] only looks at the category's list. *)
Lemma rows_ext (c : string) (s s' : Store) :
  collection c s = collection c s' → rows c s = rows c s'.
Proof. unfold rows. by intros ->. Qed.

(** ** Running loops *)

Lemma exec_bind {A B : Type} (m : M A) (f : A → M B) (s : Store) :
  exec (m ≫= f) s = exec (f (eval m s)) (exec m s).
Proof. unfold exec, eval, mbind, M_bind. by destruct (m s). Qed.

Lemma exec_for_each_nil {A : Type} (body : A → M unit) (s : Store) :
  exec (for_each body []) s = s.
Proof. reflexivity. Qed.

Lemma exec_for_each_cons {A : Type} (body : A → M unit) (x : A)
    (xs : list A) (s : Store) :
  exec (for_each body (x :: xs)) s = exec (for_each body xs) (exec (body x) s).
Proof. cbn [for_each]. by rewrite exec_bind. Qed.

(** ** C1 *)

(** What [process_message] does to the store: it is the store after
    [increment_epoch()] and [record_user_message], the reads that follow
    leaving it as it is. *)
Lemma process_message_store (user_id message : string) (s : Store) :
  exec (process_message user_id message) s
  = exec (_ ← increment_epoch; record_user_message user_id message) s.
Proof. reflexivity. Qed.

Lemma process_message_journal (user_id message : string) (s : Store) :
  journal (exec (process_message user_id message) s)
  = journal s ++
    [ (epoch s + 1, EpochIncremented);
      (epoch s + 1,
       Created CATEGORY_CONVERSATIONS
         (length (collection CATEGORY_CONVERSATIONS s)) message
         {[ "timestamp" := PStr (isoformat (clock s));
            "user_id" := PStr user_id;
            "speaker" := PStr "user";
            "epoch" := PInt (epoch s + 1) ]});
      (epoch s + 1,
       EventLogged ("User " +:+ user_id +:+ " said: " +:+ message)
         {[ "epoch" := PInt (epoch s + 1);
            "user_id" := PStr user_id;
            "message_type" := PStr "user_message" ]}) ].
Proof. run_broker. by rewrite <- !app_assoc. Qed.

(** C1: [process_message(U, M)] leaves the epoch counter exactly one above
    its value before the call, and [increment_epoch] is called exactly once
    (one [EpochIncremented] among the effects of the call, no reset). *)
Theorem process_message_increments_epoch
    (user_id message : string) (s : Store) :
  let s' := exec (process_message user_id message) s in
  epoch s' = epoch s + 1
  ∧ length (filter (λ e, e = EpochIncremented) (effects_since s s')) = 1%nat
  ∧ EpochReset ∉ effects_since s s'.
Proof.
  intros s'. subst s'. split; [reflexivity|].
  unfold effects_since. rewrite process_message_journal, drop_app_length.
  split; [reflexivity|].
  cbn. rewrite !elem_of_cons, elem_of_nil. intros [?|[?|[?|[]]]]; discriminate.
Qed.

(** ** C3 *)

Lemma get_conversation_history_last (user_id : string) (limit : nat)
    (s : Store) :
  eval (get_conversation_history user_id limit) s
  = as_turn <$> drop (length (conversation_of user_id s) - limit)
                     (conversation_of user_id s).
Proof.
  run_broker. f_equal. fold (conversation_of user_id s).
  by rewrite take_reverse, reverse_involutive.
Qed.

(** C3: [get_conversation_history(U, L)] returns at most [L] entries; the
    list is the reverse of what the store lists newest first, which makes
    it the last [L] records of [U] in the order they were written (record
    identifiers strictly increasing); the store is left as it was. *)
Theorem get_conversation_history_chronological
    (user_id : string) (limit : nat) (s : Store) :
  let newest_first :=
    eval (get_memories CATEGORY_CONVERSATIONS
            {[ "user_id" := PStr user_id ]} limit Desc) s in
  let history := eval (get_conversation_history user_id limit) s in
  (length history ≤ limit)%nat
  ∧ history = as_turn <$> reverse newest_first
  ∧ reverse newest_first
    = drop (length (conversation_of user_id s) - limit)
           (conversation_of user_id s)
  ∧ StronglySorted (λ a b, (id a < id b)%nat) (reverse newest_first)
  ∧ exec (get_conversation_history user_id limit) s = s.
Proof.
  intros newest_first history.
  assert (Hrev : reverse newest_first
                 = drop (length (conversation_of user_id s) - limit)
                        (conversation_of user_id s)).
  { change newest_first
      with (take limit (reverse (conversation_of user_id s))).
    by rewrite take_reverse, reverse_involutive. }
  split_and!.
  - subst history. rewrite get_conversation_history_last.
    rewrite length_fmap, length_drop. lia.
  - reflexivity.
  - exact Hrev.
  - rewrite Hrev. apply StronglySorted_drop, StronglySorted_filter.
    apply rows_oldest_first.
  - reflexivity.
Qed.

(** ** The store's search *)

Lemma matches_singleton (k : string) (v : pyval) (m : memory) :
  matches {[ k := v ]} m ↔ metadata m !! k = Some v.
Proof. unfold matches. by rewrite map_Forall_singleton. Qed.

Lemma matches_empty (m : memory) : matches ∅ m.
Proof. unfold matches. apply map_Forall_empty. Qed.

(** Whatever [search_memory] returns is a record of the category that
    passes the filter. *)
Lemma search_memory_elem (c q : string) (f : gmap string pyval) (n : nat)
    (s : Store) (m : memory) :
  m ∈ eval (search_memory c q f n) s → m ∈ rows c s ∧ matches f m.
Proof.
  unfold eval, search_memory. cbn. intros Hm.
  apply subseteq_take in Hm. rewrite merge_sort_Permutation in Hm.
  apply list_elem_of_filter in Hm as [? ?]. done.
Qed.

(** [search_memory] comes back empty-handed only when the cap is zero or
    no record of the category passes the filter. *)
Lemma search_memory_nil (c q : string) (f : gmap string pyval) (n : nat)
    (s : Store) :
  eval (search_memory c q f n) s = [] →
  n = 0%nat ∨ filter (matches f) (rows c s) = [].
Proof.
  unfold eval, search_memory. cbn. intros Hnil.
  destruct n as [|n]; [by left|right].
  apply (f_equal length) in Hnil. rewrite length_take in Hnil.
  rewrite merge_sort_Permutation in Hnil.
  destruct (filter (matches f) (rows c s)); [done|]. cbn in Hnil. lia.
Qed.

(** ** C4 and C5 *)

(** What [record_user_preference(U, T, V)] does with the answer of the
    search, and what it leaves alone: it touches nothing but the preferences
    category.  When the search returns something, the first record returned
    is a record of [U] in that category and the call rewrites only its
    metadata keys [value] and [timestamp]: the record keeps its text and
    every other metadata key (so its [user_id]), no other record changes and
    none is added.  When the search returns nothing, one record is appended,
    with text [T] and metadata carrying [U], [V] and the timestamp. *)
Lemma record_user_preference_frame
    (user_id preference_type preference_value : string) (s : Store) :
  let s' :=
    exec (record_user_preference user_id preference_type preference_value) s in
  let now := PStr (isoformat (clock s)) in
  (∀ c, c ≠ CATEGORY_USER_PREFERENCES → collection c s' = collection c s)
  ∧ events s' = events s
  ∧ epoch s' = epoch s
  ∧ match eval (search_memory CATEGORY_USER_PREFERENCES preference_type
                  {[ "user_id" := PStr user_id ]} default_n_results) s with
    | first :: _ =>
        collection CATEGORY_USER_PREFERENCES s !! id first
          = Some (document first, metadata first)
        ∧ metadata first !! "user_id" = Some (PStr user_id)
        ∧ (∃ md',
              collection CATEGORY_USER_PREFERENCES s' !! id first
                = Some (document first, md')
              ∧ md' !! "value" = Some (PStr preference_value)
              ∧ md' !! "timestamp" = Some now
              ∧ ∀ k, k ≠ "value" → k ≠ "timestamp" →
                     md' !! k = metadata first !! k)
        ∧ (∀ j, j ≠ id first →
             collection CATEGORY_USER_PREFERENCES s' !! j
               = collection CATEGORY_USER_PREFERENCES s !! j)
        ∧ length (collection CATEGORY_USER_PREFERENCES s')
            = length (collection CATEGORY_USER_PREFERENCES s)
    | [] =>
        collection CATEGORY_USER_PREFERENCES s'
          = collection CATEGORY_USER_PREFERENCES s
            ++ [ (preference_type,
                  {[ "user_id" := PStr user_id;
                     "value" := PStr preference_value;
                     "timestamp" := now ]}) ]
    end.
Proof.
  intros s' now.
  pose proof (search_memory_elem CATEGORY_USER_PREFERENCES preference_type
                {[ "user_id" := PStr user_id ]} default_n_results s) as Helem.
  subst s'. revert Helem. run_broker.
  destruct (take default_n_results _) as [|first rest] eqn:Hsearch;
    intros Helem; cbn.
  - split_and!; try reflexivity.
    + intros c Hc. by store_simpl.
    + by store_simpl.
  - destruct (Helem first) as [Hrow Huser]; [by left|].
    apply elem_of_rows in Hrow. apply matches_singleton in Huser.
    split_and!; try done.
    + intros c Hc. by store_simpl.
    + exists ({[ "value" := PStr preference_value; "timestamp" := now ]}
                ∪ metadata first).
      split_and!.
      * store_simpl. by rewrite list_lookup_alter_eq, Hrow.
      * by apply lookup_union_Some_l.
      * apply lookup_union_Some_l.
        by rewrite lookup_insert_ne, lookup_singleton_eq.
      * intros k Hv Ht. apply lookup_union_r.
        by rewrite lookup_insert_ne, lookup_singleton_ne.
    + intros j Hj. store_simpl. by rewrite list_lookup_alter_ne.
    + store_simpl. apply length_alter.
Qed.

(** A store whose category grew by one row has one more memory. *)
Lemma rows_snoc (c : string) (s s' : Store) (t : string)
    (md : gmap string pyval) :
  collection c s' = collection c s ++ [(t, md)] →
  rows c s' = rows c s ++ [Memory (length (collection c s)) t md].
Proof.
  unfold rows. intros ->. rewrite imap_app, imap_cons, imap_nil.
  cbn [fst snd]. by rewrite Nat.add_0_r.
Qed.

(** The two branches of [record_user_preference], as stores. *)
Lemma record_user_preference_creates
    (user_id preference_type preference_value : string) (s : Store) :
  eval (search_memory CATEGORY_USER_PREFERENCES preference_type
          {[ "user_id" := PStr user_id ]} default_n_results) s = [] →
  exec (record_user_preference user_id preference_type preference_value) s
  = let md := {[ "user_id" := PStr user_id;
                 "value" := PStr preference_value;
                 "timestamp" := PStr (isoformat (clock s)) ]} in
    mkStore
      (<[CATEGORY_USER_PREFERENCES :=
           collection CATEGORY_USER_PREFERENCES s
           ++ [(preference_type, md)]]> (collections s))
      (events s) (epoch s) (S (clock s))
      (journal s
         ++ [(epoch s,
              Created CATEGORY_USER_PREFERENCES
                (length (collection CATEGORY_USER_PREFERENCES s))
                preference_type md)]).
Proof.
  unfold eval, exec, record_user_preference, mbind, M_bind.
  destruct (search_memory _ _ _ _ s) as [found s0] eqn:Hsearch.
  injection Hsearch as <- <-. cbn [fst]. by intros ->.
Qed.

Lemma record_user_preference_updates
    (user_id preference_type preference_value : string) (s : Store)
    (first : memory) (rest : list memory) :
  eval (search_memory CATEGORY_USER_PREFERENCES preference_type
          {[ "user_id" := PStr user_id ]} default_n_results) s
  = first :: rest →
  exec (record_user_preference user_id preference_type preference_value) s
  = let md := {[ "value" := PStr preference_value;
                 "timestamp" := PStr (isoformat (clock s)) ]} in
    mkStore
      (<[CATEGORY_USER_PREFERENCES :=
           alter (λ row, (row.1, md ∪ row.2)) (id first)
                 (collection CATEGORY_USER_PREFERENCES s)]> (collections s))
      (events s) (epoch s) (S (clock s))
      (journal s
         ++ [(epoch s, Updated CATEGORY_USER_PREFERENCES (id first) md)]).
Proof.
  unfold eval, exec, record_user_preference, mbind, M_bind.
  destruct (search_memory _ _ _ _ s) as [found s0] eqn:Hsearch.
  injection Hsearch as <- <-. cbn [fst]. by intros ->.
Qed.

(** The defect in general: once a user holds any preference, no call of
    [record_user_preference] for that user adds a record or changes a
    record's type, whatever type it is called with. *)
Lemma record_user_preference_keeps_types
    (user_id preference_type preference_value : string) (s : Store) :
  (0 < default_n_results)%nat →
  preferences_of user_id s ≠ [] →
  (collection CATEGORY_USER_PREFERENCES
     (exec (record_user_preference user_id preference_type preference_value)
           s)).*1
  = (collection CATEGORY_USER_PREFERENCES s).*1.
Proof.
  intros Hn Hsome.
  destruct (eval (search_memory CATEGORY_USER_PREFERENCES preference_type
                    {[ "user_id" := PStr user_id ]} default_n_results) s)
    as [|first rest] eqn:Hsearch.
  - apply search_memory_nil in Hsearch as [Hzero|Hnone]; [lia|done].
  - rewrite (record_user_preference_updates _ _ _ _ _ _ Hsearch).
    cbn zeta. rewrite collection_insert_eq.
    apply list_eq. intros j. rewrite !list_lookup_fmap, list_lookup_alter.
    case_decide as Hj; [|done]. rewrite Hj.
    by destruct (collection CATEGORY_USER_PREFERENCES s !! j).
Qed.

(** From a store in which the user holds no preference at all, the two
    calls do leave one record of the type, with the second value. *)
Lemma record_user_preference_twice_fresh
    (user_id preference_type a b : string) (s : Store) :
  (0 < default_n_results)%nat →
  preferences_of user_id s = [] →
  let s2 := exec (_ ← record_user_preference user_id preference_type a;
                  record_user_preference user_id preference_type b) s in
  ∃ md,
    preferences_of_type user_id preference_type s2
    = [ Memory (length (collection CATEGORY_USER_PREFERENCES s))
               preference_type md ]
    ∧ md !! "value" = Some (PStr b)
    ∧ md !! "user_id" = Some (PStr user_id).
Proof.
  intros Hn Hnone s2. subst s2. rewrite exec_bind.
  set (n := length (collection CATEGORY_USER_PREFERENCES s)).
  set (md1 := {[ "user_id" := PStr user_id; "value" := PStr a;
                 "timestamp" := PStr (isoformat (clock s)) ]}
              : gmap string pyval).
  (* first call: nothing found, the record is created *)
  assert (Hsearch0 :
    eval (search_memory CATEGORY_USER_PREFERENCES preference_type
            {[ "user_id" := PStr user_id ]} default_n_results) s = []).
  { unfold eval, search_memory. cbn [fst].
    fold (preferences_of user_id s). rewrite Hnone. apply take_nil. }
  pose proof (record_user_preference_creates user_id preference_type a s
                Hsearch0) as Hs1.
  cbn zeta in Hs1. fold n md1 in Hs1.
  set (s1 := exec (record_user_preference user_id preference_type a) s) in *.
  assert (Hcoll1 : collection CATEGORY_USER_PREFERENCES s1
                   = collection CATEGORY_USER_PREFERENCES s
                     ++ [(preference_type, md1)])
    by (rewrite Hs1; apply collection_insert_eq).
  assert (Huser1 : matches {[ "user_id" := PStr user_id ]}
                           (Memory n preference_type md1)).
  { apply matches_singleton. subst md1. cbn [metadata].
    by rewrite lookup_insert_eq. }
  assert (Hprefs1 : preferences_of user_id s1
                    = [Memory n preference_type md1]).
  { unfold preferences_of. rewrite (rows_snoc _ s s1 _ _ Hcoll1), filter_app.
    fold (preferences_of user_id s). rewrite Hnone. fold n.
    by rewrite filter_cons, decide_True. }
  (* second call: the record is found and updated *)
  assert (Hsearch1 :
    eval (search_memory CATEGORY_USER_PREFERENCES preference_type
            {[ "user_id" := PStr user_id ]} default_n_results) s1
    = [Memory n preference_type md1]).
  { unfold eval, search_memory. cbn [fst].
    fold (preferences_of user_id s1). rewrite Hprefs1.
    change (merge_sort _ [?m]) with [m].
    rewrite take_ge; [reflexivity|]. cbn [length]. lia. }
  rewrite (record_user_preference_updates _ _ _ _ _ _ Hsearch1).
  cbn zeta. cbn [id].
  set (md2 := {[ "value" := PStr b;
                 "timestamp" := PStr (isoformat (clock s1)) ]}
              : gmap string pyval).
  set (s2 := mkStore _ _ _ _ _).
  assert (Hcoll2 : collection CATEGORY_USER_PREFERENCES s2
                   = collection CATEGORY_USER_PREFERENCES s
                     ++ [(preference_type, md2 ∪ md1)]).
  { subst s2. rewrite collection_insert_eq, Hcoll1.
    replace n with (length (collection CATEGORY_USER_PREFERENCES s) + 0)%nat
      by (subst n; lia).
    by rewrite alter_app_r. }
  exists (md2 ∪ md1).
  assert (Huser2 : (md2 ∪ md1) !! "user_id" = Some (PStr user_id)).
  { rewrite lookup_union_r.
    - subst md1. by rewrite lookup_insert_eq.
    - subst md2. by rewrite lookup_insert_ne, lookup_singleton_ne. }
  split_and!.
  - unfold preferences_of_type, preferences_of.
    rewrite (rows_snoc _ s s2 _ _ Hcoll2), filter_app.
    fold (preferences_of user_id s). rewrite Hnone. fold n.
    rewrite app_nil_l, filter_cons, decide_True
      by by apply matches_singleton.
    by rewrite filter_cons, decide_True.
  - apply lookup_union_Some_l. subst md2. by rewrite lookup_insert_eq.
  - exact Huser2.
Qed.

(** The memories of a category after [update_memory]. *)
Lemma rows_alter (c : string) (s s' : Store) (i : nat)
    (md : gmap string pyval) :
  collection c s'
    = alter (λ row, (row.1, md ∪ row.2)) i (collection c s) →
  rows c s' = updated i md <$> rows c s.
Proof.
  unfold rows. intros ->. apply list_eq. intros j.
  rewrite list_lookup_fmap, !list_lookup_imap, list_lookup_alter.
  unfold updated.
  destruct (decide (i = j)) as [->|Hij];
    destruct (collection c s !! j) as [[t m]|]; cbn; try done.
  - by rewrite decide_True.
  - by rewrite decide_False.
Qed.

Lemma filter_fmap_preserved {A : Type} (P : A → Prop)
    `{!∀ x, Decision (P x)} (h : A → A) (l : list A) :
  (∀ x, P (h x) ↔ P x) → filter P (h <$> l) = h <$> filter P l.
Proof.
  intros Hh. induction l as [|x l IH]; [done|].
  rewrite fmap_cons, !filter_cons.
  destruct (decide (P x)) as [Hx|Hx].
  - rewrite decide_True by by apply Hh. by rewrite fmap_cons, IH.
  - rewrite decide_False by by rewrite Hh. exact IH.
Qed.

(** An update that does not write ["user_id"] leaves every record with
    its user. *)
Lemma preferences_of_updated (user_id : string) (s s' : Store) (i : nat)
    (md : gmap string pyval) :
  md !! "user_id" = None →
  collection CATEGORY_USER_PREFERENCES s'
    = alter (λ row, (row.1, md ∪ row.2)) i
            (collection CATEGORY_USER_PREFERENCES s) →
  preferences_of user_id s' = updated i md <$> preferences_of user_id s.
Proof.
  intros Hmd Halter. unfold preferences_of.
  rewrite (rows_alter _ s s' i md Halter).
  apply filter_fmap_preserved. intros m.
  rewrite !matches_singleton. unfold updated.
  destruct (decide (id m = i)); [|done]. cbn [metadata].
  by rewrite lookup_union_r.
Qed.

(** C4, the code at the inputs where the claim fails: [U] holds preference
    records, none of them of type [T] (the specification's "not found").
    [record_user_preference(U, T, V)] then creates no record: afterwards
    [U] still has no preference of type [T] and the category holds the same
    texts as before; instead a record of [U] of another type has been given
    the value [V].  The search is a similarity search among all of [U]'s
    preferences, so its first answer need not be of type [T]. *)
Theorem record_user_preference_misses_type
    (user_id preference_type preference_value : string) (s : Store) :
  (0 < default_n_results)%nat →
  preferences_of user_id s ≠ [] →
  preferences_of_type user_id preference_type s = [] →
  let s' :=
    exec (record_user_preference user_id preference_type preference_value) s in
  preferences_of_type user_id preference_type s' = []
  ∧ texts CATEGORY_USER_PREFERENCES s' = texts CATEGORY_USER_PREFERENCES s
  ∧ ∃ m md',
      m ∈ preferences_of user_id s
      ∧ document m ≠ preference_type
      ∧ collection CATEGORY_USER_PREFERENCES s' !! id m
        = Some (document m, md')
      ∧ md' !! "value" = Some (PStr preference_value).
Proof.
  intros Hn Hsome Hnone s'.
  destruct (eval (search_memory CATEGORY_USER_PREFERENCES preference_type
                    {[ "user_id" := PStr user_id ]} default_n_results) s)
    as [|first rest] eqn:Hsearch.
  { apply search_memory_nil in Hsearch as [Hzero|Hempty]; [lia|done]. }
  pose proof (record_user_preference_updates user_id preference_type
                preference_value s first rest Hsearch) as Hs1.
  cbn zeta in Hs1. fold s' in Hs1.
  set (md := {[ "value" := PStr preference_value;
                "timestamp" := PStr (isoformat (clock s)) ]}
             : gmap string pyval) in *.
  assert (Hcoll : collection CATEGORY_USER_PREFERENCES s'
                  = alter (λ row, (row.1, md ∪ row.2)) (id first)
                          (collection CATEGORY_USER_PREFERENCES s))
    by (rewrite Hs1; apply collection_insert_eq).
  destruct (search_memory_elem CATEGORY_USER_PREFERENCES preference_type
              {[ "user_id" := PStr user_id ]} default_n_results s first)
    as [Hrow Huser]; [rewrite Hsearch; by left|].
  assert (Hfirst : first ∈ preferences_of user_id s)
    by (by apply list_elem_of_filter).
  assert (Hdoc : document first ≠ preference_type).
  { intros Heq.
    assert (Hin : first ∈ preferences_of_type user_id preference_type s)
      by (by apply list_elem_of_filter).
    rewrite Hnone in Hin. by apply elem_of_nil in Hin. }
  split_and!.
  - unfold preferences_of_type.
    rewrite (preferences_of_updated user_id s s' (id first) md)
      by (done || by rewrite lookup_insert_ne, lookup_singleton_ne).
    rewrite filter_fmap_preserved.
    + fold (preferences_of_type user_id preference_type s).
      by rewrite Hnone.
    + intros m. unfold updated. by destruct (decide (id m = id first)).
  - by apply record_user_preference_keeps_types.
  - exists first, (md ∪ metadata first). split_and!; try done.
    + apply elem_of_rows in Hrow.
      by rewrite Hcoll, list_lookup_alter_eq, Hrow.
    + apply lookup_union_Some_l. subst md. by rewrite lookup_insert_eq.
Qed.

(** C5, the code at a failing input: user ["u1"] holds one preference, of
    type ["color"], and none of type ["topic"].  Recording ["topic"] as
    ["A"] and then as ["B"] creates no record of type ["topic"]: the search
    is a similarity search among all of the user's preferences, so it
    returns the ["color"] record, whose value is overwritten twice. *)
Theorem record_user_preference_overwrites_other_type :
  (0 < default_n_results)%nat →
  let s0 := exec (record_user_preference "u1" "color" "red") empty_store in
  let s2 := exec (_ ← record_user_preference "u1" "topic" "A";
                  record_user_preference "u1" "topic" "B") s0 in
  preferences_of_type "u1" "topic" s0 = []
  ∧ preferences_of_type "u1" "topic" s2 = []
  ∧ rows CATEGORY_USER_PREFERENCES s2
    = [ Memory 0 "color"
          {[ "user_id" := PStr "u1"; "value" := PStr "B";
             "timestamp" := PStr (isoformat 2) ]} ].
Proof.
  intros Hn s0 s2.
  destruct default_n_results as [|n] eqn:Hdef; [lia|].
  assert (Hs2 : rows CATEGORY_USER_PREFERENCES s2
    = [ Memory 0 "color"
          {[ "user_id" := PStr "u1"; "value" := PStr "B";
             "timestamp" := PStr (isoformat 2) ]} ]).
  { subst s0 s2. unfold exec, record_user_preference, mbind, M_bind.
    rewrite Hdef. vm_compute. reflexivity. }
  split_and!.
  - subst s0. unfold exec, record_user_preference, mbind, M_bind.
    rewrite Hdef. vm_compute. reflexivity.
  - unfold preferences_of_type, preferences_of. rewrite Hs2.
    vm_compute. reflexivity.
  - exact Hs2.
Qed.

(** ** C6 *)

Lemma seeded_tagged (texts : list string) (t0 : nat) :
  Forall (λ row, row.2 !! "source" = Some (PStr "initial_seeding")
                 ∧ is_Some (row.2 !! "timestamp"))
         (seeded texts t0).
Proof.
  apply Forall_forall. intros row Hrow.
  apply elem_of_lookup_imap in Hrow as (i & text & -> & _). cbn. split.
  - by rewrite lookup_insert_ne, lookup_singleton_eq.
  - rewrite lookup_insert_eq. by eexists.
Qed.

Lemma seeded_cons (text : string) (texts : list string) (t0 : nat) :
  seeded (text :: texts) t0
  = (text, {[ "timestamp" := PStr (isoformat t0);
              "source" := PStr "initial_seeding" ]})
    :: seeded texts (S t0).
Proof.
  unfold seeded. rewrite imap_cons, Nat.add_0_r. f_equal.
  apply imap_ext. intros i x _. cbn. by rewrite Nat.add_succ_r.
Qed.

Lemma seed_one_run (category text : string) (s : Store) :
  exec (seed_one category text) s
  = mkStore
      (<[category := collection category s
                     ++ [(text, {[ "timestamp" := PStr (isoformat (clock s));
                                   "source" := PStr "initial_seeding" ]})]]>
         (collections s))
      (events s) (epoch s) (S (clock s))
      (journal s
         ++ [(epoch s,
              Created category (length (collection category s)) text
                {[ "timestamp" := PStr (isoformat (clock s));
                   "source" := PStr "initial_seeding" ]})]).
Proof. reflexivity. Qed.

(** One seeding loop: the texts are appended to the category in order,
    one clock reading each; nothing else moves. *)
Lemma for_each_seed_one (category : string) (texts : list string)
    (s : Store) :
  let s' := exec (for_each (seed_one category) texts) s in
  collection category s'
    = collection category s ++ seeded texts (clock s)
  ∧ (∀ c, c ≠ category → collection c s' = collection c s)
  ∧ events s' = events s
  ∧ epoch s' = epoch s
  ∧ clock s' = (clock s + length texts)%nat
  ∧ ∃ new, journal s' = journal s ++ new
           ∧ Forall (seed_write category) new.
Proof.
  revert s. induction texts as [|text texts IH]; intros s s'.
  - subst s'. cbn. rewrite app_nil_r. split_and!; try done; try lia.
    exists []. by rewrite app_nil_r.
  - subst s'. rewrite exec_for_each_cons.
    set (s1 := exec (seed_one category text) s).
    destruct (IH s1) as (Hcat & Hother & Hev & He & Hck & new & Hj & Hnew).
    pose proof (seed_one_run category text s) as Hs1. fold s1 in Hs1.
    rewrite Hcat, Hev, He, Hck, Hj, seeded_cons.
    rewrite Hs1. cbn [events epoch clock journal].
    rewrite collection_insert_eq.
    split_and!; try done.
    + by rewrite <- app_assoc.
    + intros c Hc. rewrite Hother by done. rewrite Hs1.
      by rewrite collection_insert_ne.
    + cbn. lia.
    + eexists (_ :: new). split; [by rewrite <- app_assoc|].
      constructor; [|done]. eexists _, text, _. cbn. split_and!; [done| |].
      * by rewrite lookup_insert_ne, lookup_singleton_ne.
      * by rewrite lookup_insert_ne, lookup_singleton_eq.
Qed.

(** [initialize_memory], step by step: reset, then seed or not. *)
Lemma initialize_memory_run (s : Store) :
  exec initialize_memory s
  = let s0 := mkStore (collections s) (events s) 0 (clock s)
                      (journal s ++ [(0, EpochReset)]) in
    if decide (length (collection CATEGORY_ORDINALS_KNOWLEDGE s) = 0%nat)
    then exec (for_each (seed_one CATEGORY_ORDINALS_KNOWLEDGE)
                        ordinals_knowledge)
              (exec (for_each (seed_one CATEGORY_BITCOIN_FACTS)
                              bitcoin_facts) s0)
    else s0.
Proof.
  unfold initialize_memory. rewrite !exec_bind.
  change (eval (count_memories CATEGORY_ORDINALS_KNOWLEDGE) _)
    with (length (collection CATEGORY_ORDINALS_KNOWLEDGE s)).
  destruct (decide _); [|reflexivity].
  unfold seed_initial_knowledge. by rewrite exec_bind.
Qed.

Lemma initialize_memory_seeds (s : Store) :
  length (collection CATEGORY_ORDINALS_KNOWLEDGE s) = 0%nat →
  let s1 := exec initialize_memory s in
  collection CATEGORY_BITCOIN_FACTS s1
    = collection CATEGORY_BITCOIN_FACTS s ++ seeded bitcoin_facts (clock s)
  ∧ collection CATEGORY_ORDINALS_KNOWLEDGE s1
    = collection CATEGORY_ORDINALS_KNOWLEDGE s
      ++ seeded ordinals_knowledge (clock s + 5)
  ∧ (∀ c, c ≠ CATEGORY_BITCOIN_FACTS → c ≠ CATEGORY_ORDINALS_KNOWLEDGE →
          collection c s1 = collection c s).
Proof.
  intros Hzero s1. subst s1. rewrite initialize_memory_run. cbn zeta.
  rewrite decide_True by done.
  set (s0 := mkStore _ _ _ _ _).
  destruct (for_each_seed_one CATEGORY_BITCOIN_FACTS bitcoin_facts s0)
    as (Hf1 & Ho1 & _ & _ & Hck1 & _).
  set (sf := exec (for_each (seed_one CATEGORY_BITCOIN_FACTS) bitcoin_facts)
                  s0) in *.
  destruct (for_each_seed_one CATEGORY_ORDINALS_KNOWLEDGE ordinals_knowledge
              sf)
    as (Hf2 & Ho2 & _).
  split_and!.
  - rewrite Ho2 by done. exact Hf1.
  - rewrite Hf2, Ho1 by done. rewrite Hck1. reflexivity.
  - intros c Hcf Hco. rewrite Ho2, Ho1 by done. reflexivity.
Qed.

Lemma initialize_memory_skips (s : Store) :
  length (collection CATEGORY_ORDINALS_KNOWLEDGE s) ≠ 0%nat →
  exec initialize_memory s
  = mkStore (collections s) (events s) 0 (clock s)
            (journal s ++ [(0, EpochReset)]).
Proof.
  intros Hne. rewrite initialize_memory_run. cbn zeta.
  by rewrite decide_False.
Qed.

(** C6: [initialize_memory] seeds exactly when the Ordinals-knowledge
    category is empty at the check: then both fixed lists are appended,
    every seeded record tagged with a timestamp and
    [source = "initial_seeding"]; otherwise no category changes.  Running
    it a second time right after changes no category and creates nothing:
    the only effect of the second run is the epoch reset. *)
Theorem initialize_memory_seeds_once (s : Store) :
  let s1 := exec initialize_memory s in
  let s2 := exec initialize_memory s1 in
  (if decide (eval (count_memories CATEGORY_ORDINALS_KNOWLEDGE) s = 0%nat)
   then
     collection CATEGORY_BITCOIN_FACTS s1
       = collection CATEGORY_BITCOIN_FACTS s ++ seeded bitcoin_facts (clock s)
     ∧ collection CATEGORY_ORDINALS_KNOWLEDGE s1
       = seeded ordinals_knowledge (clock s + 5)
     ∧ (∀ c, c ≠ CATEGORY_BITCOIN_FACTS →
             c ≠ CATEGORY_ORDINALS_KNOWLEDGE →
             collection c s1 = collection c s)
   else ∀ c, collection c s1 = collection c s)
  ∧ Forall (λ row, row.2 !! "source" = Some (PStr "initial_seeding")
                   ∧ is_Some (row.2 !! "timestamp"))
           (seeded bitcoin_facts (clock s)
              ++ seeded ordinals_knowledge (clock s + 5))
  ∧ (∀ c, collection c s2 = collection c s1)
  ∧ effects_since s1 s2 = [EpochReset].
Proof.
  intros s1 s2.
  assert (Hfull : length (collection CATEGORY_ORDINALS_KNOWLEDGE s1) ≠ 0%nat).
  { destruct (decide (length (collection CATEGORY_ORDINALS_KNOWLEDGE s)
                      = 0%nat)) as [Hz|Hnz].
    - destruct (initialize_memory_seeds s Hz) as (_ & Ho & _).
      fold s1 in Ho. rewrite Ho, length_app. cbn. lia.
    - subst s1. by rewrite initialize_memory_skips. }
  split_and!.
  - unfold eval, count_memories. cbn. destruct (decide _) as [Hz|Hnz].
    + destruct (initialize_memory_seeds s Hz) as (Hf & Ho & Hc).
      split_and!; [done| |done].
      fold s1 in Ho. rewrite Ho.
      by destruct (collection CATEGORY_ORDINALS_KNOWLEDGE s).
    + intros c. subst s1. by rewrite initialize_memory_skips.
  - apply Forall_app. split; apply seeded_tagged.
  - intros c. subst s2. by rewrite initialize_memory_skips.
  - subst s2. rewrite initialize_memory_skips by done.
    unfold effects_since. cbn. by rewrite drop_app_length.
Qed.

(** ** C7 *)

Lemma record_bitcoin_fact_unique (fact source : string) :
  record_bitcoin_fact fact source
  = record_unique CATEGORY_BITCOIN_FACTS fact source.
Proof. reflexivity. Qed.

Lemma record_ordinals_knowledge_unique (knowledge source : string) :
  record_ordinals_knowledge knowledge source
  = record_unique CATEGORY_ORDINALS_KNOWLEDGE knowledge source.
Proof. reflexivity. Qed.

(** With a near-duplicate in the category the call writes nothing. *)
Lemma record_unique_duplicate (category text source : string) (s : Store)
    (m : memory) :
  m ∈ rows category s →
  near_duplicate (85 # 100) text m →
  exec (record_unique category text source) s
  = mkStore (collections s) (events s) (epoch s) (S (clock s)) (journal s).
Proof.
  intros Hm Hnear. unfold exec, record_unique, create_unique_memory.
  unfold mbind, M_bind, mret, M_ret. cbn.
  change (rows category _) with (rows category s).
  destruct (filter _ (rows category s)) as [|x l] eqn:Hfilter; [|done].
  exfalso. by eapply filter_nil_not_elem_of.
Qed.

(** Without one it appends the text, stamped with the source and the
    current epoch. *)
Lemma record_unique_novel (category text source : string) (s : Store) :
  filter (near_duplicate (85 # 100) text) (rows category s) = [] →
  exec (record_unique category text source) s
  = let md := {[ "timestamp" := PStr (isoformat (clock s));
                 "source" := PStr source; "epoch" := PInt (epoch s) ]} in
    mkStore (<[category := collection category s ++ [(text, md)]]>
               (collections s))
            (events s) (epoch s) (S (clock s))
            (journal s
               ++ [(epoch s,
                    Created category (length (collection category s))
                            text md)]).
Proof.
  intros Hnone. unfold exec, record_unique, create_unique_memory.
  unfold mbind, M_bind, mret, M_ret. cbn.
  change (rows category _) with (rows category s).
  by rewrite Hnone.
Qed.

(** C7: when some record of the Bitcoin-facts category is at least 0.85
    similar to [F], [record_bitcoin_fact(F, source)] leaves the category as
    it is, so its count does not grow, and nothing is created. *)
Theorem record_bitcoin_fact_near_duplicate
    (fact source : string) (s : Store) :
  (∃ m, m ∈ rows CATEGORY_BITCOIN_FACTS s
        ∧ (85 # 100 <= similarity fact (document m))%Q) →
  let s' := exec (record_bitcoin_fact fact source) s in
  (eval (count_memories CATEGORY_BITCOIN_FACTS) s'
   ≤ eval (count_memories CATEGORY_BITCOIN_FACTS) s)%nat
  ∧ collection CATEGORY_BITCOIN_FACTS s' = collection CATEGORY_BITCOIN_FACTS s
  ∧ effects_since s s' = [].
Proof.
  intros (m & Hm & Hsim) s'. subst s'.
  rewrite record_bitcoin_fact_unique.
  rewrite (record_unique_duplicate _ _ _ _ m Hm)
    by (by apply Qle_bool_iff).
  split_and!.
  - unfold eval, count_memories. cbn. by rewrite collection_same.
  - apply collection_same.
  - unfold effects_since. cbn. by rewrite drop_all.
Qed.

(** ** C8 *)

(** The store after [record_agent_response]: one conversation record, one
    event, one clock reading. *)
Lemma record_agent_response_run (user_id message : string) (s : Store) :
  exec (record_agent_response user_id message) s
  = let md := {[ "timestamp" := PStr (isoformat (clock s));
                 "user_id" := PStr user_id;
                 "speaker" := PStr "ord_gpt";
                 "epoch" := PInt (epoch s) ]} in
    let ev_text := "Ord GPT responded to " +:+ user_id +:+ ": "
                     +:+ String.substring 0 50 message +:+ "..." in
    let ev_md := {[ "epoch" := PInt (epoch s);
                    "user_id" := PStr user_id;
                    "message_type" := PStr "agent_response" ]} in
    mkStore
      (<[CATEGORY_CONVERSATIONS :=
           collection CATEGORY_CONVERSATIONS s ++ [(message, md)]]>
         (collections s))
      (events s ++ [(ev_text, ev_md)]) (epoch s) (S (clock s))
      (journal s
         ++ [ (epoch s,
               Created CATEGORY_CONVERSATIONS
                 (length (collection CATEGORY_CONVERSATIONS s)) message md);
              (epoch s, EventLogged ev_text ev_md) ]).
Proof. run_broker. unfold log, put_collection. cbn. by rewrite <- app_assoc. Qed.

(** C8 as the code has it: [record_agent_response(U, T)] appends one
    conversation record whose text is all of [T] and whose speaker is
    ["ord_gpt"], and logs one event whose description holds [T[:50]], a
    prefix of [T] of at most 50 characters; no other category changes. *)
Theorem record_agent_response_keeps_full_text
    (user_id message : string) (s : Store) :
  let s' := exec (record_agent_response user_id message) s in
  let preview := String.substring 0 50 message in
  collection CATEGORY_CONVERSATIONS s'
    = collection CATEGORY_CONVERSATIONS s
      ++ [ (message,
            {[ "timestamp" := PStr (isoformat (clock s));
               "user_id" := PStr user_id;
               "speaker" := PStr "ord_gpt";
               "epoch" := PInt (epoch s) ]}) ]
  ∧ events s'
    = events s
      ++ [ ("Ord GPT responded to " +:+ user_id +:+ ": " +:+ preview
              +:+ "...",
            {[ "epoch" := PInt (epoch s);
               "user_id" := PStr user_id;
               "message_type" := PStr "agent_response" ]}) ]
  ∧ (String.length preview ≤ 50)%nat
  ∧ (∃ rest, message = preview +:+ rest)
  ∧ (∀ c, c ≠ CATEGORY_CONVERSATIONS → collection c s' = collection c s).
Proof.
  intros s' preview. subst s'. run_broker. split_and!.
  - by store_simpl.
  - reflexivity.
  - apply substring_0_length.
  - apply substring_0_prefix.
  - intros c Hc. by store_simpl.
Qed.

(** What a [for fact in new_facts: record_bitcoin_fact(fact)] loop does:
    at most one record per text, all in its own category; nothing else
    moves. *)
Lemma for_each_record_unique (category source : string)
    (texts : list string) (s : Store) :
  let s' := exec (for_each (λ t, record_unique category t source) texts) s in
  ∃ new,
    journal s' = journal s ++ new
    ∧ Forall (unique_write category source texts) new
    ∧ (length new ≤ length texts)%nat
    ∧ length (collection category s')
      = (length (collection category s) + length new)%nat
    ∧ epoch s' = epoch s
    ∧ events s' = events s
    ∧ (∀ c, c ≠ category → collection c s' = collection c s).
Proof.
  revert s. induction texts as [|text texts IH]; intros s s'.
  - exists []. subst s'. cbn. rewrite app_nil_r.
    split_and!; try done; try lia.
  - subst s'. rewrite exec_for_each_cons.
    set (s1 := exec (record_unique category text source) s).
    destruct (IH s1) as (new & Hj & Hnew & Hlen & Hcount & He & Hev & Hc).
    assert (Hweaken : Forall (unique_write category source (text :: texts))
                             new).
    { eapply Forall_impl; [exact Hnew|].
      intros entry (i & t & md & ? & ? & ? & ?).
      exists i, t, md. split_and!; try done. by right. }
    destruct (filter (near_duplicate (85 # 100) text) (rows category s))
      as [|m l] eqn:Hfilter.
    + pose proof (record_unique_novel category text source s Hfilter) as Hs1.
      fold s1 in Hs1. cbn zeta in Hs1.
      eexists (_ :: new). rewrite Hj, Hcount, He, Hev.
      rewrite Hs1 at 1 2 3 4. cbn [journal epoch events].
      rewrite collection_insert_eq, length_app, <- app_assoc.
      split_and!; try done.
      * constructor; [|done].
        eexists _, text, _. cbn. split_and!; [done|by left| |].
        -- by rewrite lookup_insert_ne, lookup_insert_eq.
        -- by rewrite !lookup_insert_ne, lookup_singleton_eq.
      * cbn. lia.
      * cbn. lia.
      * intros c Hne. rewrite Hc by done. rewrite Hs1.
        by rewrite collection_insert_ne.
    + assert (Hm : m ∈ filter (near_duplicate (85 # 100) text)
                               (rows category s))
        by (rewrite Hfilter; by left).
      apply list_elem_of_filter in Hm as [Hnear Hm].
      pose proof (record_unique_duplicate category text source s m Hm Hnear)
        as Hs1.
      fold s1 in Hs1.
      exists new. rewrite Hj, Hcount, He, Hev.
      rewrite Hs1 at 1 2 3 4. cbn [journal epoch events].
      rewrite collection_same.
      split_and!; try done.
      * cbn. lia.
      * intros c Hne. rewrite Hc by done. by rewrite Hs1.
Qed.

(** ** C10 *)

(** After one deduplicating insert of [text], the category holds a record
    that is as similar to [text] as [text] is to itself or more than 0.85
    similar. *)
Lemma record_unique_leaves_duplicate (category text source : string)
    (s : Store) :
  (85 # 100 <= similarity text text)%Q →
  ∃ m, m ∈ rows category (exec (record_unique category text source) s)
       ∧ near_duplicate (85 # 100) text m.
Proof.
  intros Hself.
  destruct (filter (near_duplicate (85 # 100) text) (rows category s))
    as [|m l] eqn:Hfilter.
  - pose proof (record_unique_novel category text source s Hfilter) as Hs1.
    cbn zeta in Hs1.
    set (s1 := exec (record_unique category text source) s) in *.
    eexists (Memory (length (collection category s)) text _). split.
    + rewrite (rows_snoc category s s1 text
                 {[ "timestamp" := PStr (isoformat (clock s));
                    "source" := PStr source;
                    "epoch" := PInt (epoch s) ]})
        by (rewrite Hs1; apply collection_insert_eq).
      apply elem_of_app. right. by left.
    + unfold near_duplicate. cbn [document]. by apply Qle_bool_iff.
  - assert (Hm : m ∈ filter (near_duplicate (85 # 100) text)
                               (rows category s))
      by (rewrite Hfilter; by left).
    apply list_elem_of_filter in Hm as [Hnear Hm].
    exists m. split; [|done].
    rewrite (record_unique_duplicate category text source s m Hm Hnear).
    by rewrite (rows_ext category _ s) by apply collection_same.
Qed.

(** [record_response], statement by statement: the response, then the
    loop over the facts, then the loop over the knowledge items. *)
Lemma record_response_steps (user_id response : string)
    (new_facts new_knowledge : option (list string)) (s : Store) :
  exec (record_response user_id response new_facts new_knowledge) s
  = exec (for_each (λ t, record_unique CATEGORY_ORDINALS_KNOWLEDGE t
                           "conversation") (truthy new_knowledge))
      (exec (for_each (λ t, record_unique CATEGORY_BITCOIN_FACTS t
                              "conversation") (truthy new_facts))
         (exec (record_agent_response user_id response) s)).
Proof. unfold record_response. by rewrite !exec_bind. Qed.

(** The items [if new_facts:] lets through are the supplied ones. *)
Lemma truthy_supplied {A : Type} (xs : option (list A)) :
  truthy xs = default [] xs.
Proof. by destruct xs. Qed.

(** Rows appended to a category leave its earlier memories in place. *)
Lemma rows_app_elem (c : string) (s s' : Store)
    (added : list (string * gmap string pyval)) (m : memory) :
  collection c s' = collection c s ++ added →
  m ∈ rows c s → m ∈ rows c s'.
Proof.
  unfold rows. intros -> Hm. rewrite imap_app. apply elem_of_app. by left.
Qed.

(** What a loop of deduplicating inserts stores, row by row: the category
    grows by exactly the rows of [unique_inserts], each with its journal
    entry, and the clock is read once per item. *)
Lemma for_each_record_unique_exact (category source : string)
    (items : list string) (s : Store) :
  let s' := exec (for_each (λ t, record_unique category t source) items) s in
  let added := unique_inserts source items (clock s) (epoch s)
                 (collection category s) in
  collection category s' = collection category s ++ added
  ∧ journal s'
    = journal s
      ++ created_entries category (epoch s) (length (collection category s))
           added
  ∧ clock s' = (clock s + length items)%nat.
Proof.
  revert s. induction items as [|x items IH]; intros s s' added.
  - subst s' added. rewrite exec_for_each_nil. cbn. rewrite !app_nil_r.
    split_and!; [done|done|lia].
  - subst s' added. rewrite exec_for_each_cons.
    set (s1 := exec (record_unique category x source) s).
    pose proof (IH s1) as (Hc & Hj & Hk). cbn zeta in Hc, Hj, Hk.
    cbn [unique_inserts]. cbn zeta.
    change (imap _ (collection category s)) with (rows category s).
    destruct (filter (near_duplicate (85 # 100) x) (rows category s))
      as [|m l] eqn:Hfilter.
    + pose proof (record_unique_novel category x source s Hfilter) as Hs1.
      fold s1 in Hs1. cbn zeta in Hs1.
      set (md := {[ "timestamp" := PStr (isoformat (clock s));
                    "source" := PStr source; "epoch" := PInt (epoch s) ]}
                 : gmap string pyval) in *.
      assert (Hc1 : collection category s1
                    = collection category s ++ [(x, md)])
        by (rewrite Hs1; apply collection_insert_eq).
      assert (He1 : epoch s1 = epoch s) by (by rewrite Hs1).
      assert (Hk1 : clock s1 = S (clock s)) by (by rewrite Hs1).
      assert (Hj1 : journal s1
                    = journal s
                      ++ [(epoch s,
                           Created category (length (collection category s))
                                   x md)])
        by (by rewrite Hs1).
      rewrite Hc, Hj, Hk. rewrite Hc1, He1, Hk1, Hj1.
      split_and!.
      * by rewrite <- app_assoc.
      * rewrite <- app_assoc. f_equal. unfold created_entries.
        cbn [imap app fst snd]. rewrite Nat.add_0_r. f_equal.
        apply imap_ext. intros i row _. cbn.
        rewrite length_app. cbn [length]. do 2 f_equal. lia.
      * cbn [length]. lia.
    + assert (Hm : m ∈ filter (near_duplicate (85 # 100) x)
                               (rows category s))
        by (rewrite Hfilter; by left).
      apply list_elem_of_filter in Hm as [Hnear Hm].
      pose proof (record_unique_duplicate category x source s m Hm Hnear)
        as Hs1.
      fold s1 in Hs1.
      assert (Hc1 : collection category s1 = collection category s)
        by (rewrite Hs1; apply collection_same).
      assert (He1 : epoch s1 = epoch s) by (by rewrite Hs1).
      assert (Hk1 : clock s1 = S (clock s)) by (by rewrite Hs1).
      assert (Hj1 : journal s1 = journal s) by (by rewrite Hs1).
      rewrite Hc, Hj, Hk. rewrite Hc1, He1, Hk1, Hj1.
      split_and!; [done|done|]. cbn [length]. lia.
Qed.

(** After the loop every item that is at least 0.85 similar to itself has
    a counterpart in the category: the record made of it, or the record
    that kept it out. *)
Lemma for_each_record_unique_represents (category source : string)
    (items : list string) (s : Store) (x : string) :
  x ∈ items →
  (85 # 100 <= similarity x x)%Q →
  ∃ m, m ∈ rows category
             (exec (for_each (λ t, record_unique category t source) items) s)
       ∧ near_duplicate (85 # 100) x m.
Proof.
  revert s. induction items as [|y items IH]; intros s Hx Hself.
  - by apply elem_of_nil in Hx.
  - rewrite exec_for_each_cons. apply elem_of_cons in Hx as [->|Hx].
    + destruct (record_unique_leaves_duplicate category y source s Hself)
        as (m & Hm & Hnear).
      exists m. split; [|done].
      set (s1 := exec (record_unique category y source) s) in *.
      destruct (for_each_record_unique_exact category source items s1)
        as (Hc & _ & _).
      by eapply rows_app_elem.
    + by apply IH.
Qed.

(** C10: [record_response(U, T, new_facts, new_knowledge)] first appends
    the response as a conversation record and logs its event.  Then the
    supplied facts are persisted, in order, into the Bitcoin-facts
    category: each one that is less than 0.85 similar to every record
    there becomes a record with its text, source ["conversation"], the
    clock reading of its turn and the current epoch; then the supplied
    knowledge items likewise into the Ordinals-knowledge category.  These
    are all the writes, in this order.  So a supplied fact that is at
    least 0.85 similar to itself has a counterpart in the category
    afterwards, and with both arguments [None] or empty the call writes the
    one conversation record and its event and nothing else. *)
Theorem record_response_effects
    (user_id response : string)
    (new_facts new_knowledge : option (list string)) (s : Store) :
  let s' :=
    exec (record_response user_id response new_facts new_knowledge) s in
  let facts := default [] new_facts in
  let knowledge := default [] new_knowledge in
  let md := {[ "timestamp" := PStr (isoformat (clock s));
               "user_id" := PStr user_id;
               "speaker" := PStr "ord_gpt";
               "epoch" := PInt (epoch s) ]} in
  let ev_text := "Ord GPT responded to " +:+ user_id +:+ ": "
                   +:+ String.substring 0 50 response +:+ "..." in
  let ev_md := {[ "epoch" := PInt (epoch s);
                  "user_id" := PStr user_id;
                  "message_type" := PStr "agent_response" ]} in
  let added_facts :=
    unique_inserts "conversation" facts (S (clock s)) (epoch s)
      (collection CATEGORY_BITCOIN_FACTS s) in
  let added_knowledge :=
    unique_inserts "conversation" knowledge (S (clock s) + length facts)
      (epoch s) (collection CATEGORY_ORDINALS_KNOWLEDGE s) in
  let written_facts :=
    created_entries CATEGORY_BITCOIN_FACTS (epoch s)
      (length (collection CATEGORY_BITCOIN_FACTS s)) added_facts in
  let written_knowledge :=
    created_entries CATEGORY_ORDINALS_KNOWLEDGE (epoch s)
      (length (collection CATEGORY_ORDINALS_KNOWLEDGE s)) added_knowledge in
  journal s'
    = journal s
      ++ [ (epoch s,
            Created CATEGORY_CONVERSATIONS
              (length (collection CATEGORY_CONVERSATIONS s)) response md);
           (epoch s, EventLogged ev_text ev_md) ]
      ++ written_facts ++ written_knowledge
  ∧ collection CATEGORY_CONVERSATIONS s'
    = collection CATEGORY_CONVERSATIONS s ++ [(response, md)]
  ∧ events s' = events s ++ [(ev_text, ev_md)]
  ∧ collection CATEGORY_BITCOIN_FACTS s'
    = collection CATEGORY_BITCOIN_FACTS s ++ added_facts
  ∧ collection CATEGORY_ORDINALS_KNOWLEDGE s'
    = collection CATEGORY_ORDINALS_KNOWLEDGE s ++ added_knowledge
  ∧ Forall (unique_write CATEGORY_BITCOIN_FACTS "conversation" facts)
           written_facts
  ∧ Forall (unique_write CATEGORY_ORDINALS_KNOWLEDGE "conversation"
              knowledge) written_knowledge
  ∧ (length written_facts ≤ length facts)%nat
  ∧ (length written_knowledge ≤ length knowledge)%nat
  ∧ length (collection CATEGORY_BITCOIN_FACTS s')
    = (length (collection CATEGORY_BITCOIN_FACTS s)
       + length written_facts)%nat
  ∧ length (collection CATEGORY_ORDINALS_KNOWLEDGE s')
    = (length (collection CATEGORY_ORDINALS_KNOWLEDGE s)
       + length written_knowledge)%nat
  ∧ (∀ fact, fact ∈ facts → (85 # 100 <= similarity fact fact)%Q →
       ∃ m, m ∈ rows CATEGORY_BITCOIN_FACTS s'
            ∧ near_duplicate (85 # 100) fact m)
  ∧ (∀ item, item ∈ knowledge → (85 # 100 <= similarity item item)%Q →
       ∃ m, m ∈ rows CATEGORY_ORDINALS_KNOWLEDGE s'
            ∧ near_duplicate (85 # 100) item m)
  ∧ (facts = [] → knowledge = [] →
     journal s'
       = journal s
         ++ [ (epoch s,
               Created CATEGORY_CONVERSATIONS
                 (length (collection CATEGORY_CONVERSATIONS s)) response md);
              (epoch s, EventLogged ev_text ev_md) ]
     ∧ collection CATEGORY_BITCOIN_FACTS s'
       = collection CATEGORY_BITCOIN_FACTS s
     ∧ collection CATEGORY_ORDINALS_KNOWLEDGE s'
       = collection CATEGORY_ORDINALS_KNOWLEDGE s)
  ∧ (∀ c, c ≠ CATEGORY_CONVERSATIONS → c ≠ CATEGORY_BITCOIN_FACTS →
          c ≠ CATEGORY_ORDINALS_KNOWLEDGE → collection c s' = collection c s)
  ∧ epoch s' = epoch s.
Proof.
  intros s' facts knowledge md ev_text ev_md added_facts added_knowledge
         written_facts written_knowledge.
  subst s'. rewrite record_response_steps, !truthy_supplied.
  fold facts knowledge.
  set (s1 := exec (record_agent_response user_id response) s).
  pose proof (record_agent_response_run user_id response s) as Hs1.
  fold s1 in Hs1. cbn zeta in Hs1. fold md ev_text ev_md in Hs1.
  assert (Hconv : collection CATEGORY_CONVERSATIONS s1
                  = collection CATEGORY_CONVERSATIONS s ++ [(response, md)])
    by (rewrite Hs1; apply collection_insert_eq).
  assert (Hev : events s1 = events s ++ [(ev_text, ev_md)])
    by (by rewrite Hs1).
  assert (Hother : ∀ c, c ≠ CATEGORY_CONVERSATIONS →
                        collection c s1 = collection c s).
  { intros c Hc. rewrite Hs1. by rewrite collection_insert_ne. }
  assert (Hj1 : journal s1
    = journal s
      ++ [ (epoch s,
            Created CATEGORY_CONVERSATIONS
              (length (collection CATEGORY_CONVERSATIONS s)) response md);
           (epoch s, EventLogged ev_text ev_md) ])
    by (by rewrite Hs1).
  assert (He1 : epoch s1 = epoch s) by (by rewrite Hs1).
  assert (Hk1 : clock s1 = S (clock s)) by (by rewrite Hs1).
  (* the loop over the facts *)
  destruct (for_each_record_unique CATEGORY_BITCOIN_FACTS "conversation"
              facts s1)
    as (wf & Hj2 & Hwf & Hlf & Hcf & He2 & Hev2 & Hc2).
  destruct (for_each_record_unique_exact CATEGORY_BITCOIN_FACTS
              "conversation" facts s1) as (Hxc2 & Hxj2 & Hk2).
  pose proof (for_each_record_unique_represents CATEGORY_BITCOIN_FACTS
                "conversation" facts s1) as Hrep2.
  rewrite Hk1, He1, (Hother CATEGORY_BITCOIN_FACTS) in Hxc2, Hxj2 by done.
  rewrite Hk1 in Hk2.
  fold added_facts in Hxc2, Hxj2. fold written_facts in Hxj2.
  rewrite Hxj2 in Hj2. apply app_inv_head in Hj2. subst wf.
  set (s2 := exec (for_each _ facts) s1) in *.
  (* the loop over the knowledge items *)
  destruct (for_each_record_unique CATEGORY_ORDINALS_KNOWLEDGE "conversation"
              knowledge s2)
    as (wk & Hj3 & Hwk & Hlk & Hck & He3 & Hev3 & Hc3).
  destruct (for_each_record_unique_exact CATEGORY_ORDINALS_KNOWLEDGE
              "conversation" knowledge s2) as (Hxc3 & Hxj3 & _).
  pose proof (for_each_record_unique_represents CATEGORY_ORDINALS_KNOWLEDGE
                "conversation" knowledge s2) as Hrep3.
  rewrite Hk2, He2, He1 in Hxc3, Hxj3.
  rewrite (Hc2 CATEGORY_ORDINALS_KNOWLEDGE),
          (Hother CATEGORY_ORDINALS_KNOWLEDGE) in Hxc3, Hxj3 by done.
  fold added_knowledge in Hxc3, Hxj3. fold written_knowledge in Hxj3.
  rewrite Hxj3 in Hj3. apply app_inv_head in Hj3. subst wk.
  set (s3 := exec (for_each _ knowledge) s2) in *.
  split_and!.
  - rewrite Hxj3, Hxj2, Hj1. by rewrite <- !app_assoc.
  - rewrite Hc3, Hc2 by done. exact Hconv.
  - rewrite Hev3, Hev2. exact Hev.
  - rewrite Hc3 by done. exact Hxc2.
  - exact Hxc3.
  - exact Hwf.
  - exact Hwk.
  - exact Hlf.
  - exact Hlk.
  - rewrite Hc3 by done. rewrite Hcf. by rewrite Hother.
  - rewrite Hck. rewrite Hc2 by done. by rewrite Hother.
  - intros fact Hfact Hself.
    destruct (Hrep2 fact Hfact Hself) as (m & Hm & Hnear).
    exists m. split; [|done].
    by rewrite (rows_ext CATEGORY_BITCOIN_FACTS s3 s2) by by apply Hc3.
  - exact Hrep3.
  - intros Hnf Hnk.
    rewrite Hxj3, Hxj2, Hj1, Hxc3. rewrite Hc3, Hxc2 by done.
    subst written_facts written_knowledge added_facts added_knowledge.
    rewrite Hnf, Hnk. cbn [unique_inserts created_entries imap].
    by rewrite !app_nil_r.
  - intros c Hconv' Hfacts' Hknow'.
    rewrite Hc3, Hc2 by done. by apply Hother.
  - by rewrite He3, He2.
Qed.

(** ** C9 *)





(** ** The bundle of [process_message] *)

(** The ranking of the store's search is a total preorder. *)
#[global] Instance closer_total (q : string) : Total (closer q).
Proof.
  intros m1 m2. unfold closer. rewrite !Qle_bool_iff.
  destruct (Qlt_le_dec (similarity q (document m1))
                       (similarity q (document m2))) as [Hlt|Hle].
  - right. by apply Qlt_le_weak.
  - by left.
Qed.

#[global] Instance closer_trans (q : string) : Transitive (closer q).
Proof.
  intros m1 m2 m3. unfold closer. rewrite !Qle_bool_iff.
  intros H12 H23. by eapply Qle_trans.
Qed.

(** The records [search_memory] cuts its answer from: all records of the
    category that pass the filter, best match first. *)
Lemma search_memory_ranked (c q : string) (f : gmap string pyval) (n : nat)
    (s : Store) :
  ∃ ranked,
    ranked ≡ₚ filter (matches f) (rows c s)
    ∧ StronglySorted (closer q) ranked
    ∧ eval (search_memory c q f n) s = take n ranked.
Proof.
  exists (merge_sort (closer q) (filter (matches f) (rows c s))).
  split_and!.
  - apply merge_sort_Permutation.
  - apply StronglySorted_merge_sort; apply _.
  - reflexivity.
Qed.

Lemma filter_matches_empty (l : list memory) : filter (matches ∅) l = l.
Proof.
  induction l as [|m l IH]; [done|].
  rewrite filter_cons, decide_True by apply matches_empty. by rewrite IH.
Qed.



(** The conversation of a user right after [record_user_message]. *)
Lemma conversation_of_recorded (user_id message : string) (s : Store) :
  conversation_of user_id
    (exec (_ ← increment_epoch; record_user_message user_id message) s)
  = conversation_of user_id s
    ++ [ Memory (length (collection CATEGORY_CONVERSATIONS s)) message
           {[ "timestamp" := PStr (isoformat (clock s));
              "user_id" := PStr user_id;
              "speaker" := PStr "user";
              "epoch" := PInt (epoch s + 1) ]} ].
Proof.
  unfold conversation_of, rows. run_broker. store_simpl.
  rewrite imap_app, filter_app. f_equal.
  rewrite imap_cons, filter_cons, decide_True.
  - cbn [fst snd imap filter list_filter]. by rewrite Nat.add_0_r.
  - apply matches_singleton. cbn [metadata snd].
    by rewrite lookup_insert_ne, lookup_insert_eq.
Qed.



End BrokerFacts.

(** * More of the broker: what the other paths do *)

Section BrokerCoverage.

Context {lib : StoreParams}.

(** ** Recording a message *)

(** The store after [record_user_message]: one conversation record, one
    event, one clock reading. *)
Lemma record_user_message_run (user_id message : string) (s : Store) :
  exec (record_user_message user_id message) s
  = let md := {[ "timestamp" := PStr (isoformat (clock s));
                 "user_id" := PStr user_id;
                 "speaker" := PStr "user";
                 "epoch" := PInt (epoch s) ]} in
    let ev_text := "User " +:+ user_id +:+ " said: " +:+ message in
    let ev_md := {[ "epoch" := PInt (epoch s);
                    "user_id" := PStr user_id;
                    "message_type" := PStr "user_message" ]} in
    mkStore
      (<[CATEGORY_CONVERSATIONS :=
           collection CATEGORY_CONVERSATIONS s ++ [(message, md)]]>
         (collections s))
      (events s ++ [(ev_text, ev_md)]) (epoch s) (S (clock s))
      (journal s
         ++ [ (epoch s,
               Created CATEGORY_CONVERSATIONS
                 (length (collection CATEGORY_CONVERSATIONS s)) message md);
              (epoch s, EventLogged ev_text ev_md) ]).
Proof. run_broker. unfold log, put_collection. cbn. by rewrite <- app_assoc. Qed.

(** X1: [record_user_message(U, M)] appends one conversation record with
    the whole text [M], speaker ["user"], the user and the current epoch,
    and logs one event whose description holds the whole of [M] (nothing is
    cut, unlike for an agent response); no other category and not the
    epoch changes. *)
Theorem record_user_message_keeps_full_text
    (user_id message : string) (s : Store) :
  let s' := exec (record_user_message user_id message) s in
  collection CATEGORY_CONVERSATIONS s'
    = collection CATEGORY_CONVERSATIONS s
      ++ [ (message,
            {[ "timestamp" := PStr (isoformat (clock s));
               "user_id" := PStr user_id;
               "speaker" := PStr "user";
               "epoch" := PInt (epoch s) ]}) ]
  ∧ events s'
    = events s
      ++ [ ("User " +:+ user_id +:+ " said: " +:+ message,
            {[ "epoch" := PInt (epoch s);
               "user_id" := PStr user_id;
               "message_type" := PStr "user_message" ]}) ]
  ∧ (∀ c, c ≠ CATEGORY_CONVERSATIONS → collection c s' = collection c s)
  ∧ epoch s' = epoch s.
Proof.
  intros s'. subst s'. rewrite record_user_message_run. cbn zeta.
  split_and!.
  - apply collection_insert_eq.
  - reflexivity.
  - intros c Hc. by rewrite collection_insert_ne.
  - reflexivity.
Qed.

(** The conversation of a user when the category grew by one record: the
    record joins it exactly when it carries the user's id. *)
Lemma conversation_of_snoc (user_id : string) (s s' : Store) (t : string)
    (md : gmap string pyval) :
  collection CATEGORY_CONVERSATIONS s'
    = collection CATEGORY_CONVERSATIONS s ++ [(t, md)] →
  conversation_of user_id s'
  = conversation_of user_id s
    ++ (if decide (md !! "user_id" = Some (PStr user_id))
        then [Memory (length (collection CATEGORY_CONVERSATIONS s)) t md]
        else []).
Proof.
  intros Hgrow. unfold conversation_of.
  rewrite (rows_snoc _ s s' _ _ Hgrow), filter_app. f_equal.
  rewrite filter_cons, filter_nil.
  destruct (decide (md !! "user_id" = Some (PStr user_id))) as [Hu|Hu].
  - rewrite decide_True; [done|]. by apply matches_singleton.
  - rewrite decide_False; [done|]. by rewrite matches_singleton.
Qed.

Lemma last_drop_snoc {A : Type} (l : list A) (x : A) (k : nat) :
  (k ≤ length l)%nat → last (drop k (l ++ [x])) = Some x.
Proof. intros Hk. by rewrite drop_app_le, last_snoc. Qed.

(** X2: a message just recorded is the last turn of the user's history,
    for any limit of at least 1: with speaker ["user"] after
    [record_user_message], with speaker ["ord_gpt"] after
    [record_agent_response]. *)
Theorem history_ends_with_recorded_message
    (user_id message : string) (limit : nat) (s : Store) :
  (0 < limit)%nat →
  last (eval (get_conversation_history user_id limit)
          (exec (record_user_message user_id message) s))
    = Some (Turn (PStr "user") message)
  ∧ last (eval (get_conversation_history user_id limit)
            (exec (record_agent_response user_id message) s))
    = Some (Turn (PStr "ord_gpt") message).
Proof.
  intros Hlimit. split.
  - rewrite get_conversation_history_last, fmap_last.
    rewrite (conversation_of_snoc user_id s _ message
               {[ "timestamp" := PStr (isoformat (clock s));
                  "user_id" := PStr user_id;
                  "speaker" := PStr "user";
                  "epoch" := PInt (epoch s) ]}).
    + rewrite decide_True
        by (by rewrite lookup_insert_ne, lookup_insert_eq).
      rewrite length_app. cbn [length].
      rewrite last_drop_snoc by lia. reflexivity.
    + rewrite record_user_message_run. apply collection_insert_eq.
  - rewrite get_conversation_history_last, fmap_last.
    rewrite (conversation_of_snoc user_id s _ message
               {[ "timestamp" := PStr (isoformat (clock s));
                  "user_id" := PStr user_id;
                  "speaker" := PStr "ord_gpt";
                  "epoch" := PInt (epoch s) ]}).
    + rewrite decide_True
        by (by rewrite lookup_insert_ne, lookup_insert_eq).
      rewrite length_app. cbn [length].
      rewrite last_drop_snoc by lia. reflexivity.
    + rewrite record_agent_response_run. apply collection_insert_eq.
Qed.

(** X3: what one user says or is answered never shows in another user's
    history. *)
Theorem history_of_other_user_unchanged
    (user_id other message : string) (limit : nat) (s : Store) :
  other ≠ user_id →
  eval (get_conversation_history user_id limit)
       (exec (record_user_message other message) s)
    = eval (get_conversation_history user_id limit) s
  ∧ eval (get_conversation_history user_id limit)
         (exec (record_agent_response other message) s)
    = eval (get_conversation_history user_id limit) s.
Proof.
  intros Hother.
  assert (Hne : ∀ speaker : string,
    ({[ "timestamp" := PStr (isoformat (clock s));
        "user_id" := PStr other;
        "speaker" := PStr speaker;
        "epoch" := PInt (epoch s) ]} : gmap string pyval) !! "user_id"
    ≠ Some (PStr user_id)).
  { intros speaker. rewrite lookup_insert_ne, lookup_insert_eq by done.
    intros Heq. injection Heq as Heq. done. }
  split.
  - rewrite !get_conversation_history_last.
    rewrite (conversation_of_snoc user_id s _ message
               {[ "timestamp" := PStr (isoformat (clock s));
                  "user_id" := PStr other;
                  "speaker" := PStr "user";
                  "epoch" := PInt (epoch s) ]}).
    + rewrite decide_False by apply Hne. by rewrite app_nil_r.
    + rewrite record_user_message_run. apply collection_insert_eq.
  - rewrite !get_conversation_history_last.
    rewrite (conversation_of_snoc user_id s _ message
               {[ "timestamp" := PStr (isoformat (clock s));
                  "user_id" := PStr other;
                  "speaker" := PStr "ord_gpt";
                  "epoch" := PInt (epoch s) ]}).
    + rewrite decide_False by apply Hne. by rewrite app_nil_r.
    + rewrite record_agent_response_run. apply collection_insert_eq.
Qed.

Lemma substring_0_length_min (n : nat) (text : string) :
  String.length (String.substring 0 n text) = (n `min` String.length text)%nat.
Proof.
  revert text. induction n as [|n IH]; intros [|a text]; cbn; try done.
  by rewrite IH.
Qed.

(** X4: the preview in the event of an agent response has exactly
    [min(50, len(T))] characters, and the ["..."] is appended also when
    [T] is short enough not to be cut: then the description holds all of
    [T], followed by ["..."]. *)
Theorem agent_response_preview_length (user_id message : string) (s : Store) :
  let s' := exec (record_agent_response user_id message) s in
  let preview := String.substring 0 50 message in
  fst <$> last (events s')
    = Some ("Ord GPT responded to " +:+ user_id +:+ ": " +:+ preview
              +:+ "...")
  ∧ String.length preview = (50 `min` String.length message)%nat
  ∧ ((String.length message ≤ 50)%nat → preview = message).
Proof.
  intros s' preview. subst s'. rewrite record_agent_response_run. cbn zeta.
  cbn [events]. rewrite last_snoc. split_and!.
  - reflexivity.
  - apply substring_0_length_min.
  - apply substring_0_short.
Qed.

(** ** Preferences *)

(** The loop of [get_user_preferences], key by key: the last record of the
    listing whose text is the key decides; a key no record has keeps what
    the mapping held. *)
Lemma add_preference_lookup (l : list memory) (acc : gmap string pyval)
    (k : string) :
  foldl add_preference acc l !! k
  = match last (filter (λ m, document m = k) l) with
    | Some m => Some (filed_value m)
    | None => acc !! k
    end.
Proof.
  induction l as [|x l IH] using rev_ind; [done|].
  rewrite foldl_snoc, filter_app, filter_cons, filter_nil.
  unfold add_preference at 1.
  destruct (decide (document x = k)) as [Hk|Hk].
  - rewrite last_snoc, Hk. by rewrite lookup_insert_eq.
  - rewrite app_nil_r, lookup_insert_ne by done. exact IH.
Qed.

Lemma get_user_preferences_eval (user_id : string) (s : Store) :
  eval (get_user_preferences user_id) s
  = foldl add_preference ∅
      (take 100 (in_order default_sort_order (preferences_of user_id s))).
Proof. reflexivity. Qed.

(** X5: what [get_user_preferences(U)] holds under a type [T]: the value
    of the last record of type [T] among the first 100 preference records
    of [U] the store lists ([None] when that record has no ["value"] key),
    and nothing when none of them has type [T]: a later record of the
    listing overwrites an earlier one of the same type. *)
Theorem get_user_preferences_last_wins
    (user_id preference_type : string) (s : Store) :
  eval (get_user_preferences user_id) s !! preference_type
  = filed_value
      <$> last (filter (λ m, document m = preference_type)
                  (take 100 (in_order default_sort_order
                               (preferences_of user_id s)))).
Proof.
  rewrite get_user_preferences_eval, add_preference_lookup.
  destruct (last _); [reflexivity|]. apply lookup_empty.
Qed.

(** The preferences of a user when the category grew by one record. *)
Lemma preferences_of_snoc (user_id : string) (s s' : Store) (t : string)
    (md : gmap string pyval) :
  collection CATEGORY_USER_PREFERENCES s'
    = collection CATEGORY_USER_PREFERENCES s ++ [(t, md)] →
  preferences_of user_id s'
  = preferences_of user_id s
    ++ (if decide (md !! "user_id" = Some (PStr user_id))
        then [Memory (length (collection CATEGORY_USER_PREFERENCES s)) t md]
        else []).
Proof.
  intros Hgrow. unfold preferences_of.
  rewrite (rows_snoc _ s s' _ _ Hgrow), filter_app. f_equal.
  rewrite filter_cons, filter_nil.
  destruct (decide (md !! "user_id" = Some (PStr user_id))) as [Hu|Hu].
  - rewrite decide_True; [done|]. by apply matches_singleton.
  - rewrite decide_False; [done|]. by rewrite matches_singleton.
Qed.

(** With nothing of the user in the category the search finds nothing;
    with one record it finds that record. *)
Lemma search_preferences_none (user_id preference_type : string)
    (s : Store) :
  preferences_of user_id s = [] →
  eval (search_memory CATEGORY_USER_PREFERENCES preference_type
          {[ "user_id" := PStr user_id ]} default_n_results) s = [].
Proof.
  intros Hnone. unfold eval, search_memory. cbn [fst].
  fold (preferences_of user_id s). rewrite Hnone. apply take_nil.
Qed.

Lemma search_preferences_one (user_id preference_type : string)
    (s : Store) (m : memory) :
  (0 < default_n_results)%nat →
  preferences_of user_id s = [m] →
  eval (search_memory CATEGORY_USER_PREFERENCES preference_type
          {[ "user_id" := PStr user_id ]} default_n_results) s = [m].
Proof.
  intros Hn Hone. unfold eval, search_memory. cbn [fst].
  fold (preferences_of user_id s). rewrite Hone.
  change (merge_sort _ [m]) with [m].
  rewrite take_ge; [reflexivity|]. cbn [length]. lia.
Qed.

Lemma in_order_singleton (order : sort_order) (m : memory) :
  in_order order [m] = [m].
Proof. by destruct order. Qed.

(** X6: a first preference reads back: for a user with no preference
    record, after [record_user_preference(U, T, V)] the mapping of
    [get_user_preferences(U)] is exactly [{T: V}]. *)
Theorem first_preference_reads_back
    (user_id preference_type preference_value : string) (s : Store) :
  preferences_of user_id s = [] →
  eval (get_user_preferences user_id)
       (exec (record_user_preference user_id preference_type
                preference_value) s)
  = {[ preference_type := PStr preference_value ]}.
Proof.
  intros Hnone.
  pose proof (record_user_preference_creates user_id preference_type
                preference_value s
                (search_preferences_none user_id preference_type s Hnone))
    as Hs1.
  cbn zeta in Hs1.
  set (s1 := exec (record_user_preference user_id preference_type
                     preference_value) s) in *.
  rewrite get_user_preferences_eval.
  rewrite (preferences_of_snoc user_id s s1 preference_type
             {[ "user_id" := PStr user_id;
                "value" := PStr preference_value;
                "timestamp" := PStr (isoformat (clock s)) ]})
    by (rewrite Hs1; apply collection_insert_eq).
  rewrite Hnone, app_nil_l, decide_True by by rewrite lookup_insert_eq.
  rewrite in_order_singleton. cbn [take foldl].
  unfold add_preference, dict_get. cbn [document metadata].
  rewrite lookup_insert_ne, lookup_insert_eq by done.
  apply insert_empty.
Qed.

(** X7: a user's only preference record takes the new value, whatever the
    type it is recorded under: if [U] holds exactly one preference record
    [m], then after [record_user_preference(U, T, V)] the mapping of
    [get_user_preferences(U)] is [{type of m: V}]. *)
Theorem only_preference_takes_value
    (user_id preference_type preference_value : string) (s : Store)
    (m : memory) :
  (0 < default_n_results)%nat →
  preferences_of user_id s = [m] →
  eval (get_user_preferences user_id)
       (exec (record_user_preference user_id preference_type
                preference_value) s)
  = {[ document m := PStr preference_value ]}.
Proof.
  intros Hn Hone.
  pose proof (record_user_preference_updates user_id preference_type
                preference_value s m []
                (search_preferences_one user_id preference_type s m Hn Hone))
    as Hs1.
  cbn zeta in Hs1.
  set (s1 := exec (record_user_preference user_id preference_type
                     preference_value) s) in *.
  rewrite get_user_preferences_eval.
  rewrite (preferences_of_updated user_id s s1 (id m)
             {[ "value" := PStr preference_value;
                "timestamp" := PStr (isoformat (clock s)) ]}).
  - rewrite Hone. cbn [fmap list_fmap]. unfold updated.
    rewrite decide_True by done.
    rewrite in_order_singleton. cbn [take foldl].
    unfold add_preference, dict_get. cbn [document metadata].
    rewrite (lookup_union_Some_l _ _ _ (PStr preference_value))
      by by rewrite lookup_insert_eq.
    apply insert_empty.
  - by rewrite lookup_insert_ne, lookup_singleton_ne.
  - rewrite Hs1. apply collection_insert_eq.
Qed.

(** ** Facts and knowledge *)

(** What one deduplicating insert does to the store: at most one row is
    appended to its category and nothing else moves. *)
Lemma record_unique_appends (category text source : string) (s : Store) :
  let s' := exec (record_unique category text source) s in
  ∃ added,
    collection category s' = collection category s ++ added
    ∧ (length added ≤ 1)%nat
    ∧ (∀ c, c ≠ category → collection c s' = collection c s)
    ∧ events s' = events s
    ∧ epoch s' = epoch s.
Proof.
  intros s'. subst s'.
  destruct (filter (near_duplicate (85 # 100) text) (rows category s))
    as [|m l] eqn:Hfilter.
  - rewrite (record_unique_novel category text source s Hfilter). cbn zeta.
    eexists [_]. split_and!.
    + apply collection_insert_eq.
    + done.
    + intros c Hc. by rewrite collection_insert_ne.
    + reflexivity.
    + reflexivity.
  - assert (Hm : m ∈ filter (near_duplicate (85 # 100) text)
                               (rows category s))
      by (rewrite Hfilter; by left).
    apply list_elem_of_filter in Hm as [Hnear Hm].
    rewrite (record_unique_duplicate category text source s m Hm Hnear).
    exists []. rewrite app_nil_r. split_and!; try done. cbn. lia.
Qed.

Lemma filter_none {A : Type} (P : A → Prop) `{!∀ x, Decision (P x)}
    (l : list A) :
  (∀ x, x ∈ l → ¬ P x) → filter P l = [].
Proof.
  intros Hnone. destruct (filter P l) as [|x k] eqn:Hfilter; [done|].
  assert (Hx : x ∈ filter P l) by (rewrite Hfilter; by left).
  apply list_elem_of_filter in Hx as [HP Hx]. by destruct (Hnone x Hx).
Qed.

(** X8: a fact that is less than 0.85 similar to every record of the
    Bitcoin-facts category is stored: [record_bitcoin_fact(F, source)]
    appends one record with text [F], the source and the current epoch, and
    the count grows by one. *)
Theorem record_bitcoin_fact_novel (fact source : string) (s : Store) :
  (∀ m, m ∈ rows CATEGORY_BITCOIN_FACTS s →
        (similarity fact (document m) < 85 # 100)%Q) →
  let s' := exec (record_bitcoin_fact fact source) s in
  collection CATEGORY_BITCOIN_FACTS s'
    = collection CATEGORY_BITCOIN_FACTS s
      ++ [ (fact, {[ "timestamp" := PStr (isoformat (clock s));
                     "source" := PStr source;
                     "epoch" := PInt (epoch s) ]}) ]
  ∧ eval (count_memories CATEGORY_BITCOIN_FACTS) s'
    = S (eval (count_memories CATEGORY_BITCOIN_FACTS) s).
Proof.
  intros Hfar s'. subst s'. rewrite record_bitcoin_fact_unique.
  rewrite record_unique_novel.
  - cbn zeta. unfold eval, count_memories. cbn [fst].
    rewrite collection_insert_eq. split; [reflexivity|].
    rewrite length_app. cbn [length]. lia.
  - apply filter_none. intros m Hm Hnear.
    apply Qle_bool_iff in Hnear. specialize (Hfar m Hm).
    by apply Qlt_not_le in Hfar.
Qed.

(** X9: [record_ordinals_knowledge(K, source)] deduplicates within its own
    category: with a record of the Ordinals-knowledge category at least
    0.85 similar to [K] the category stays as it is, otherwise one record
    with text [K], the source and the current epoch is appended; the
    Bitcoin facts play no part in the test. *)
Theorem record_ordinals_knowledge_deduplicates
    (knowledge source : string) (s : Store) :
  let s' := exec (record_ordinals_knowledge knowledge source) s in
  match filter (near_duplicate (85 # 100) knowledge)
               (rows CATEGORY_ORDINALS_KNOWLEDGE s) with
  | [] =>
      collection CATEGORY_ORDINALS_KNOWLEDGE s'
      = collection CATEGORY_ORDINALS_KNOWLEDGE s
        ++ [ (knowledge, {[ "timestamp" := PStr (isoformat (clock s));
                            "source" := PStr source;
                            "epoch" := PInt (epoch s) ]}) ]
  | _ :: _ =>
      collection CATEGORY_ORDINALS_KNOWLEDGE s'
      = collection CATEGORY_ORDINALS_KNOWLEDGE s
  end.
Proof.
  intros s'. subst s'. rewrite record_ordinals_knowledge_unique.
  destruct (filter _ (rows CATEGORY_ORDINALS_KNOWLEDGE s))
    as [|m l] eqn:Hfilter.
  - rewrite (record_unique_novel _ _ _ _ Hfilter). cbn zeta.
    apply collection_insert_eq.
  - assert (Hm : m ∈ filter (near_duplicate (85 # 100) knowledge)
                               (rows CATEGORY_ORDINALS_KNOWLEDGE s))
      by (rewrite Hfilter; by left).
    apply list_elem_of_filter in Hm as [Hnear Hm].
    by rewrite (record_unique_duplicate _ _ _ _ m Hm Hnear).
Qed.

(** X10: recording the same fact twice stores it once: if a text is at
    least 0.85 similar to itself, a second [record_bitcoin_fact] of it,
    with whatever source, leaves the Bitcoin-facts category as the first
    call left it. *)
Theorem record_bitcoin_fact_twice
    (fact source source' : string) (s : Store) :
  (85 # 100 <= similarity fact fact)%Q →
  let s1 := exec (record_bitcoin_fact fact source) s in
  let s2 := exec (record_bitcoin_fact fact source') s1 in
  collection CATEGORY_BITCOIN_FACTS s2 = collection CATEGORY_BITCOIN_FACTS s1
  ∧ (length (collection CATEGORY_BITCOIN_FACTS s2)
     ≤ S (length (collection CATEGORY_BITCOIN_FACTS s)))%nat.
Proof.
  intros Hself s1 s2. subst s1 s2. rewrite !record_bitcoin_fact_unique.
  destruct (record_unique_leaves_duplicate CATEGORY_BITCOIN_FACTS fact source
              s Hself) as (m & Hm & Hnear).
  set (s1 := exec (record_unique CATEGORY_BITCOIN_FACTS fact source) s) in *.
  rewrite (record_unique_duplicate _ _ _ s1 m Hm Hnear).
  rewrite collection_same. split; [reflexivity|].
  destruct (record_unique_appends CATEGORY_BITCOIN_FACTS fact source s)
    as (added & Hadd & Hlen & _).
  fold s1 in Hadd. rewrite Hadd, length_app. lia.
Qed.

(** X11: recording a fact or a knowledge item writes to its own category
    only: the other categories, the event log (no event is emitted) and
    the epoch stay as they are, and the category itself only grows, by at
    most one record. *)
Theorem record_knowledge_frame (text source : string) (s : Store) :
  let sf := exec (record_bitcoin_fact text source) s in
  let sk := exec (record_ordinals_knowledge text source) s in
  ((∀ c, c ≠ CATEGORY_BITCOIN_FACTS → collection c sf = collection c s)
   ∧ events sf = events s
   ∧ epoch sf = epoch s
   ∧ collection CATEGORY_BITCOIN_FACTS s
       `prefix_of` collection CATEGORY_BITCOIN_FACTS sf
   ∧ (length (collection CATEGORY_BITCOIN_FACTS sf)
      ≤ S (length (collection CATEGORY_BITCOIN_FACTS s)))%nat)
  ∧ ((∀ c, c ≠ CATEGORY_ORDINALS_KNOWLEDGE →
           collection c sk = collection c s)
     ∧ events sk = events s
     ∧ epoch sk = epoch s
     ∧ collection CATEGORY_ORDINALS_KNOWLEDGE s
         `prefix_of` collection CATEGORY_ORDINALS_KNOWLEDGE sk
     ∧ (length (collection CATEGORY_ORDINALS_KNOWLEDGE sk)
        ≤ S (length (collection CATEGORY_ORDINALS_KNOWLEDGE s)))%nat).
Proof.
  intros sf sk. subst sf sk.
  rewrite record_bitcoin_fact_unique, record_ordinals_knowledge_unique.
  split.
  - destruct (record_unique_appends CATEGORY_BITCOIN_FACTS text source s)
      as (added & Hadd & Hlen & Hc & Hev & He).
    split_and!; try done.
    + rewrite Hadd. by apply prefix_app_r.
    + rewrite Hadd, length_app. lia.
  - destruct (record_unique_appends CATEGORY_ORDINALS_KNOWLEDGE text source s)
      as (added & Hadd & Hlen & Hc & Hev & He).
    split_and!; try done.
    + rewrite Hadd. by apply prefix_app_r.
    + rewrite Hadd, length_app. lia.
Qed.

(** ** One operation at a time *)

Lemma process_message_run (user_id message : string) (s : Store) :
  exec (process_message user_id message) s
  = let md := {[ "timestamp" := PStr (isoformat (clock s));
                 "user_id" := PStr user_id;
                 "speaker" := PStr "user";
                 "epoch" := PInt (epoch s + 1) ]} in
    let ev_text := "User " +:+ user_id +:+ " said: " +:+ message in
    let ev_md := {[ "epoch" := PInt (epoch s + 1);
                    "user_id" := PStr user_id;
                    "message_type" := PStr "user_message" ]} in
    mkStore
      (<[CATEGORY_CONVERSATIONS :=
           collection CATEGORY_CONVERSATIONS s ++ [(message, md)]]>
         (collections s))
      (events s ++ [(ev_text, ev_md)]) (epoch s + 1) (S (clock s))
      (journal s
         ++ [ (epoch s + 1, EpochIncremented);
              (epoch s + 1,
               Created CATEGORY_CONVERSATIONS
                 (length (collection CATEGORY_CONVERSATIONS s)) message md);
              (epoch s + 1, EventLogged ev_text ev_md) ]).
Proof.
  run_broker. unfold log, put_collection. cbn. by rewrite <- !app_assoc.
Qed.

(** A loop of deduplicating inserts appends at most one row per text to
    its category, and nothing else moves. *)
Lemma for_each_record_unique_appends (category source : string)
    (items : list string) (s : Store) :
  let s' := exec (for_each (λ t, record_unique category t source) items) s in
  ∃ added,
    collection category s' = collection category s ++ added
    ∧ (length added ≤ length items)%nat
    ∧ (∀ c, c ≠ category → collection c s' = collection c s)
    ∧ events s' = events s
    ∧ epoch s' = epoch s.
Proof.
  revert s. induction items as [|item items IH]; intros s s'; subst s'.
  - rewrite exec_for_each_nil. exists []. rewrite app_nil_r.
    split_and!; try done.
  - rewrite exec_for_each_cons.
    destruct (record_unique_appends category item source s)
      as (a1 & Hadd1 & Hlen1 & Hc1 & Hev1 & He1).
    set (s1 := exec (record_unique category item source) s) in *.
    destruct (IH s1) as (a2 & Hadd2 & Hlen2 & Hc2 & Hev2 & He2).
    exists (a1 ++ a2). split_and!.
    + by rewrite Hadd2, Hadd1, <- app_assoc.
    + rewrite length_app. cbn [length]. lia.
    + intros c Hc. by rewrite Hc2, Hc1.
    + by rewrite Hev2, Hev1.
    + by rewrite He2, He1.
Qed.

(** [initialize_memory] as a whole: the epoch is zero afterwards, no event
    is logged, and only the facts and the knowledge can change, by rows
    added at the end. *)
Lemma initialize_memory_appends (s : Store) :
  let s' := exec initialize_memory s in
  ∃ af ak,
    collection CATEGORY_BITCOIN_FACTS s'
      = collection CATEGORY_BITCOIN_FACTS s ++ af
    ∧ collection CATEGORY_ORDINALS_KNOWLEDGE s'
      = collection CATEGORY_ORDINALS_KNOWLEDGE s ++ ak
    ∧ (∀ c, c ≠ CATEGORY_BITCOIN_FACTS → c ≠ CATEGORY_ORDINALS_KNOWLEDGE →
            collection c s' = collection c s)
    ∧ events s' = events s
    ∧ epoch s' = 0.
Proof.
  intros s'. subst s'. rewrite initialize_memory_run. cbn zeta.
  set (s0 := mkStore _ _ _ _ _).
  destruct (decide _) as [Hz|Hnz].
  - destruct (for_each_seed_one CATEGORY_BITCOIN_FACTS bitcoin_facts s0)
      as (Hf1 & Ho1 & Hev1 & He1 & _).
    set (sf := exec (for_each (seed_one CATEGORY_BITCOIN_FACTS)
                              bitcoin_facts) s0) in *.
    destruct (for_each_seed_one CATEGORY_ORDINALS_KNOWLEDGE
                ordinals_knowledge sf)
      as (Hf2 & Ho2 & Hev2 & He2 & _).
    eexists _, _. split_and!.
    + rewrite Ho2 by done. exact Hf1.
    + rewrite Hf2, Ho1 by done. reflexivity.
    + intros c Hcf Hck. by rewrite Ho2, Ho1.
    + by rewrite Hev2, Hev1.
    + by rewrite He2, He1.
  - exists [], []. rewrite !app_nil_r. by split_and!.
Qed.

(** [record_response] as a whole. *)
Lemma record_response_appends (user_id response : string)
    (new_facts new_knowledge : option (list string)) (s : Store) :
  let s' :=
    exec (record_response user_id response new_facts new_knowledge) s in
  ∃ md ev af ak,
    collection CATEGORY_CONVERSATIONS s'
      = collection CATEGORY_CONVERSATIONS s ++ [(response, md)]
    ∧ collection CATEGORY_BITCOIN_FACTS s'
      = collection CATEGORY_BITCOIN_FACTS s ++ af
    ∧ collection CATEGORY_ORDINALS_KNOWLEDGE s'
      = collection CATEGORY_ORDINALS_KNOWLEDGE s ++ ak
    ∧ (∀ c, c ≠ CATEGORY_CONVERSATIONS → c ≠ CATEGORY_BITCOIN_FACTS →
            c ≠ CATEGORY_ORDINALS_KNOWLEDGE →
            collection c s' = collection c s)
    ∧ events s' = events s ++ [ev]
    ∧ epoch s' = epoch s.
Proof.
  intros s'. subst s'. rewrite record_response_steps.
  pose proof (record_agent_response_run user_id response s) as Hs1.
  cbn zeta in Hs1.
  set (s1 := exec (record_agent_response user_id response) s) in *.
  destruct (for_each_record_unique_appends CATEGORY_BITCOIN_FACTS
              "conversation" (truthy new_facts) s1)
    as (af & Hf & _ & Hcf & Hevf & Hef).
  set (s2 := exec (for_each _ (truthy new_facts)) s1) in *.
  destruct (for_each_record_unique_appends CATEGORY_ORDINALS_KNOWLEDGE
              "conversation" (truthy new_knowledge) s2)
    as (ak & Hk & _ & Hck & Hevk & Hek).
  eexists _, _, af, ak. split_and!.
  - rewrite Hck, Hcf by done. rewrite Hs1. apply collection_insert_eq.
  - rewrite Hck by done. rewrite Hf. f_equal. rewrite Hs1.
    by rewrite collection_insert_ne.
  - rewrite Hk. f_equal. rewrite Hcf by done. rewrite Hs1.
    by rewrite collection_insert_ne.
  - intros c Hc1 Hc2 Hc3. rewrite Hck, Hcf by done. rewrite Hs1.
    by rewrite collection_insert_ne.
  - rewrite Hevk, Hevf, Hs1. reflexivity.
  - rewrite Hek, Hef, Hs1. reflexivity.
Qed.

Lemma alter_metadata_texts (i : nat) (md : gmap string pyval)
    (l : list (string * gmap string pyval)) :
  (alter (λ row, (row.1, md ∪ row.2)) i l).*1 = l.*1.
Proof.
  apply list_eq. intros j. rewrite !list_lookup_fmap, list_lookup_alter.
  case_decide as Hj; [|done]. rewrite Hj. by destruct (l !! j).
Qed.

(** Every operation fits the summary. *)
Lemma run_op_summary (o : op) (s : Store) :
  op_summary o s (exec (run_op o) s).
Proof.
  unfold op_summary. destruct o; cbn [run_op is_record_user_preference].
  - (* initialize_memory *)
    destruct (initialize_memory_appends s)
      as (af & ak & Hf & Hk & Hc & Hev & He).
    exists [], af, ak, []. rewrite !app_nil_r.
    split_and!; try done.
    + by rewrite Hc.
    + unfold texts. by rewrite Hc.
    + intros _. by rewrite Hc.
    + intros c ? ? ? ?. by apply Hc.
  - (* process_message *)
    change (exec (_ ← process_message user_id message; mret tt) s)
      with (exec (process_message user_id message) s).
    rewrite process_message_run. cbn zeta.
    eexists [_], [], [], [_]. rewrite !app_nil_r.
    split_and!.
    + apply collection_insert_eq.
    + by rewrite collection_insert_ne.
    + by rewrite collection_insert_ne.
    + unfold texts. by rewrite collection_insert_ne.
    + intros _. by rewrite collection_insert_ne.
    + intros c ? ? ? ?. by rewrite collection_insert_ne.
    + reflexivity.
    + reflexivity.
    + reflexivity.
  - (* record_response *)
    destruct (record_response_appends user_id response new_facts
                new_knowledge s)
      as (md & ev & af & ak & Hconv & Hf & Hk & Hc & Hev & He).
    exists [(response, md)], af, ak, [ev].
    split_and!; try done.
    + unfold texts. by rewrite Hc.
    + intros _. by rewrite Hc.
    + intros c ? ? ? ?. by apply Hc.
  - (* record_user_message *)
    rewrite record_user_message_run. cbn zeta.
    eexists [_], [], [], [_]. rewrite !app_nil_r.
    split_and!.
    + apply collection_insert_eq.
    + by rewrite collection_insert_ne.
    + by rewrite collection_insert_ne.
    + unfold texts. by rewrite collection_insert_ne.
    + intros _. by rewrite collection_insert_ne.
    + intros c ? ? ? ?. by rewrite collection_insert_ne.
    + reflexivity.
    + reflexivity.
    + reflexivity.
  - (* record_agent_response *)
    rewrite record_agent_response_run. cbn zeta.
    eexists [_], [], [], [_]. rewrite !app_nil_r.
    split_and!.
    + apply collection_insert_eq.
    + by rewrite collection_insert_ne.
    + by rewrite collection_insert_ne.
    + unfold texts. by rewrite collection_insert_ne.
    + intros _. by rewrite collection_insert_ne.
    + intros c ? ? ? ?. by rewrite collection_insert_ne.
    + reflexivity.
    + reflexivity.
    + reflexivity.
  - (* record_bitcoin_fact *)
    rewrite record_bitcoin_fact_unique.
    destruct (record_unique_appends CATEGORY_BITCOIN_FACTS fact source s)
      as (af & Hadd & _ & Hc & Hev & He).
    exists [], af, [], []. rewrite !app_nil_r.
    split_and!; try done.
    + by rewrite Hc.
    + by rewrite Hc.
    + unfold texts. by rewrite Hc.
    + intros _. by rewrite Hc.
    + intros c ? ? ? ?. by apply Hc.
  - (* record_ordinals_knowledge *)
    rewrite record_ordinals_knowledge_unique.
    destruct (record_unique_appends CATEGORY_ORDINALS_KNOWLEDGE knowledge
                source s)
      as (ak & Hadd & _ & Hc & Hev & He).
    exists [], [], ak, []. rewrite !app_nil_r.
    split_and!; try done.
    + by rewrite Hc.
    + by rewrite Hc.
    + unfold texts. by rewrite Hc.
    + intros _. by rewrite Hc.
    + intros c ? ? ? ?. by apply Hc.
  - (* record_user_preference *)
    exists [], [], [], []. rewrite !app_nil_r.
    destruct (eval (search_memory CATEGORY_USER_PREFERENCES preference_type
                      {[ "user_id" := PStr user_id ]} default_n_results) s)
      as [|first rest] eqn:Hsearch.
    + rewrite (record_user_preference_creates _ _ _ _ Hsearch). cbn zeta.
      split_and!; try done.
      * by rewrite collection_insert_ne.
      * by rewrite collection_insert_ne.
      * by rewrite collection_insert_ne.
      * unfold texts. rewrite collection_insert_eq, fmap_app.
        by apply prefix_app_r.
      * intros c ? ? ? ?. by rewrite collection_insert_ne.
    + rewrite (record_user_preference_updates _ _ _ _ _ _ Hsearch). cbn zeta.
      split_and!; try done.
      * by rewrite collection_insert_ne.
      * by rewrite collection_insert_ne.
      * by rewrite collection_insert_ne.
      * unfold texts. by rewrite collection_insert_eq, alter_metadata_texts.
      * intros c ? ? ? ?. by rewrite collection_insert_ne.
  - (* get_conversation_history *)
    exists [], [], [], []. rewrite !app_nil_r. by split_and!.
  - (* search_bitcoin_facts *)
    exists [], [], [], []. rewrite !app_nil_r. by split_and!.
  - (* search_ordinals_knowledge *)
    exists [], [], [], []. rewrite !app_nil_r. by split_and!.
  - (* get_user_preferences *)
    exists [], [], [], []. rewrite !app_nil_r. by split_and!.
Qed.

(** ** Initialization *)

(** X12: [initialize_memory] sets the epoch to zero whatever it was, logs
    no event, and leaves every category but the Bitcoin facts and the
    Ordinals knowledge as it is (so conversations and preferences survive
    a restart); these two only grow at the end. *)
Theorem initialize_memory_frame (s : Store) :
  let s' := exec initialize_memory s in
  epoch s' = 0
  ∧ events s' = events s
  ∧ (∀ c, c ≠ CATEGORY_BITCOIN_FACTS → c ≠ CATEGORY_ORDINALS_KNOWLEDGE →
          collection c s' = collection c s)
  ∧ collection CATEGORY_BITCOIN_FACTS s
      `prefix_of` collection CATEGORY_BITCOIN_FACTS s'
  ∧ collection CATEGORY_ORDINALS_KNOWLEDGE s
      `prefix_of` collection CATEGORY_ORDINALS_KNOWLEDGE s'.
Proof.
  intros s'. subst s'.
  destruct (initialize_memory_appends s)
    as (af & ak & Hf & Hk & Hc & Hev & He).
  split_and!; try done.
  - rewrite Hf. by apply prefix_app_r.
  - rewrite Hk. by apply prefix_app_r.
Qed.

(** The texts a seeding loop writes are the texts it was given. *)
Lemma seeded_texts (items : list string) (t0 : nat) :
  (seeded items t0).*1 = items.
Proof.
  unfold seeded. rewrite fmap_imap.
  rewrite (imap_ext _ (λ _ x, x)) by done.
  induction items as [|x l IH]; [done|]. rewrite imap_cons. f_equal.
  exact IH.
Qed.

(** What [process_message] puts in the bundle for a category it searches:
    the texts of the first 3 of a ranking of the whole category. *)
Lemma bundle_ranked (user_id message : string) (s : Store) :
  let ctx := eval (process_message user_id message) s in
  (∃ ranked, ranked ≡ₚ rows CATEGORY_BITCOIN_FACTS s
             ∧ relevant_bitcoin_facts ctx = document <$> take 3 ranked)
  ∧ (∃ ranked, ranked ≡ₚ rows CATEGORY_ORDINALS_KNOWLEDGE s
               ∧ relevant_ordinals_knowledge ctx
                 = document <$> take 3 ranked).
Proof.
  intros ctx.
  set (s1 := exec (_ ← increment_epoch; record_user_message user_id message)
                  s).
  assert (Hrows : ∀ c, c ≠ CATEGORY_CONVERSATIONS → rows c s1 = rows c s).
  { intros c Hc. apply rows_ext. subst s1. run_broker. by store_simpl. }
  split.
  - destruct (search_memory_ranked CATEGORY_BITCOIN_FACTS message ∅ 3 s1)
      as (ranked & Hperm & _ & Htake).
    exists ranked. split.
    + by rewrite Hperm, filter_matches_empty, Hrows.
    + by rewrite <- Htake.
  - destruct (search_memory_ranked CATEGORY_ORDINALS_KNOWLEDGE message ∅ 3 s1)
      as (ranked & Hperm & _ & Htake).
    exists ranked. split.
    + by rewrite Hperm, filter_matches_empty, Hrows.
    + by rewrite <- Htake.
Qed.

Lemma process_message_epoch (user_id message : string) (s : Store) :
  current_epoch (eval (process_message user_id message) s) = epoch s + 1.
Proof. reflexivity. Qed.

(** The first 3 of a ranking of a category seeded from [items] alone. *)
Lemma top3_of_seeded (c : string) (s : Store) (items : list string)
    (t0 : nat) (ranked : list memory) :
  collection c s = seeded items t0 →
  length items = 5%nat →
  ranked ≡ₚ rows c s →
  length (document <$> take 3 ranked) = 3%nat
  ∧ document <$> take 3 ranked ⊆ items.
Proof.
  intros Hcoll Hfive Hperm. split.
  - rewrite length_fmap, length_take, Hperm.
    unfold rows. rewrite length_imap, Hcoll.
    unfold seeded. rewrite length_imap, Hfive. reflexivity.
  - intros t Ht. apply list_elem_of_fmap in Ht as (m & -> & Hm).
    apply subseteq_take in Hm. rewrite Hperm in Hm.
    apply elem_of_rows in Hm. rewrite Hcoll in Hm.
    rewrite <- (seeded_texts items t0).
    apply list_elem_of_fmap. exists (document m, metadata m).
    split; [done|]. by eapply list_elem_of_lookup_2.
Qed.

(** X13: the first bundle after a fresh start: when the Bitcoin facts and
    the Ordinals knowledge are empty, after [initialize_memory] the bundle
    of [process_message] has epoch 1, exactly 3 Bitcoin facts and exactly
    3 Ordinals knowledge items, all of them seeded texts. *)
Theorem first_bundle_after_fresh_start (user_id message : string)
    (s : Store) :
  collection CATEGORY_BITCOIN_FACTS s = [] →
  collection CATEGORY_ORDINALS_KNOWLEDGE s = [] →
  let ctx := eval (process_message user_id message)
                  (exec initialize_memory s) in
  current_epoch ctx = 1
  ∧ length (relevant_bitcoin_facts ctx) = 3%nat
  ∧ relevant_bitcoin_facts ctx ⊆ bitcoin_facts
  ∧ length (relevant_ordinals_knowledge ctx) = 3%nat
  ∧ relevant_ordinals_knowledge ctx ⊆ ordinals_knowledge.
Proof.
  intros Hf Hk ctx. subst ctx.
  assert (Hz : length (collection CATEGORY_ORDINALS_KNOWLEDGE s) = 0%nat)
    by by rewrite Hk.
  destruct (initialize_memory_seeds s Hz) as (Hfacts & Hknow & _).
  rewrite Hf in Hfacts. rewrite Hk in Hknow. rewrite app_nil_l in *.
  destruct (initialize_memory_appends s) as (_ & _ & _ & _ & _ & _ & He).
  set (s1 := exec initialize_memory s) in *. clearbody s1.
  destruct (bundle_ranked user_id message s1)
    as ((rf & Hpf & Htf) & (rk & Hpk & Htk)).
  rewrite process_message_epoch, He, Htf, Htk.
  destruct (top3_of_seeded _ s1 bitcoin_facts _ rf Hfacts eq_refl Hpf)
    as [Hlf Hsf].
  destruct (top3_of_seeded _ s1 ordinals_knowledge _ rk Hknow eq_refl Hpk)
    as [Hlk Hsk].
  by split_and!.
Qed.

(** ** Whole runs *)

Lemma processed_cons (o : op) (ops : list op) :
  processed (o :: ops)
  = ((if is_process_message o then 1 else 0) + processed ops)%nat.
Proof.
  unfold processed. rewrite filter_cons.
  destruct (is_process_message o); [by rewrite decide_True|].
  by rewrite decide_False.
Qed.

(** X14: the epoch counts the processed messages: over any sequence of
    broker operations without an initialization, the epoch grows by the
    number of [process_message] calls in it; no other operation moves
    it. *)
Theorem epoch_counts_processed_messages (ops : list op) (s : Store) :
  InitializeMemory ∉ ops →
  epoch (exec (run_ops ops) s) = epoch s + Z.of_nat (processed ops).
Proof.
  revert s. induction ops as [|o ops IH]; intros s Hinit.
  - rewrite Z.add_0_r. reflexivity.
  - apply not_elem_of_cons in Hinit as [Ho Hops].
    unfold run_ops. rewrite exec_for_each_cons. fold (run_ops ops).
    rewrite IH by done. rewrite processed_cons.
    destruct (run_op_summary o s)
      as (ac & af & ak & ev & _ & _ & _ & _ & _ & _ & _ & _ & He).
    rewrite He. destruct o; cbn [is_process_message]; try lia. done.
Qed.

(** What the summary says of texts and events: they are only added to. *)
Lemma op_summary_grows (o : op) (s s' : Store) :
  op_summary o s s' →
  (∀ c, texts c s `prefix_of` texts c s')
  ∧ events s `prefix_of` events s'.
Proof.
  intros (ac & af & ak & ev & Hc & Hf & Hk & Hp & _ & Hother & Hev & _).
  split.
  - intros c. unfold texts.
    destruct (decide (c = CATEGORY_CONVERSATIONS)) as [->|Hc1].
    { rewrite Hc, fmap_app. by apply prefix_app_r. }
    destruct (decide (c = CATEGORY_BITCOIN_FACTS)) as [->|Hc2].
    { rewrite Hf, fmap_app. by apply prefix_app_r. }
    destruct (decide (c = CATEGORY_ORDINALS_KNOWLEDGE)) as [->|Hc3].
    { rewrite Hk, fmap_app. by apply prefix_app_r. }
    destruct (decide (c = CATEGORY_USER_PREFERENCES)) as [->|Hc4].
    { exact Hp. }
    by rewrite Hother.
  - rewrite Hev. by apply prefix_app_r.
Qed.

(** X15: the broker never deletes and never rewrites a text: over any
    sequence of operations, in every category the texts held before are
    still there, in place and in order, with new ones only after them;
    the same holds for the event log. *)
Theorem broker_only_appends (ops : list op) (s : Store) :
  let s' := exec (run_ops ops) s in
  (∀ c, texts c s `prefix_of` texts c s')
  ∧ events s `prefix_of` events s'.
Proof.
  revert s. induction ops as [|o ops IH]; intros s s'; subst s'.
  - split; [intros c|]; reflexivity.
  - unfold run_ops. rewrite exec_for_each_cons. fold (run_ops ops).
    destruct (op_summary_grows o s _ (run_op_summary o s)) as [Ht1 He1].
    destruct (IH (exec (run_op o) s)) as [Ht2 He2].
    split.
    + intros c. by transitivity (texts c (exec (run_op o) s)).
    + by transitivity (events (exec (run_op o) s)).
Qed.

(** X16: events and conversation records come in pairs: over any sequence
    of operations as many events are logged as conversation records are
    written; facts, knowledge and preferences are written without an
    event. *)
Theorem one_event_per_conversation_record (ops : list op) (s : Store) :
  let s' := exec (run_ops ops) s in
  (length (events s') + length (collection CATEGORY_CONVERSATIONS s)
   = length (events s) + length (collection CATEGORY_CONVERSATIONS s'))%nat.
Proof.
  revert s. induction ops as [|o ops IH]; intros s s'; subst s'.
  - reflexivity.
  - unfold run_ops. rewrite exec_for_each_cons. fold (run_ops ops).
    specialize (IH (exec (run_op o) s)). cbn zeta in IH.
    destruct (run_op_summary o s)
      as (ac & af & ak & ev & Hc & _ & _ & _ & _ & _ & Hev & Hlen & _).
    rewrite Hc, Hev, !length_app in IH. lia.
Qed.

(** X17: the preferences category is written by [record_user_preference]
    alone: a sequence of operations without it leaves the category, texts
    and metadata, exactly as it was. *)
Theorem only_record_user_preference_writes_preferences
    (ops : list op) (s : Store) :
  Forall (λ o, is_record_user_preference o = false) ops →
  collection CATEGORY_USER_PREFERENCES (exec (run_ops ops) s)
  = collection CATEGORY_USER_PREFERENCES s.
Proof.
  revert s. induction ops as [|o ops IH]; intros s Hops; [done|].
  apply Forall_cons in Hops as [Ho Hops].
  unfold run_ops. rewrite exec_for_each_cons. fold (run_ops ops).
  rewrite IH by done.
  destruct (run_op_summary o s)
    as (ac & af & ak & ev & _ & _ & _ & _ & Hp & _).
  by apply Hp.
Qed.

(** One operation keeps "at most one preference record per user". *)
Lemma run_op_one_preference (o : op) (s : Store) :
  (0 < default_n_results)%nat →
  (∀ u, (length (preferences_of u s) ≤ 1)%nat) →
  ∀ u, (length (preferences_of u (exec (run_op o) s)) ≤ 1)%nat.
Proof.
  intros Hn Hone u.
  destruct (is_record_user_preference o) eqn:Hrup.
  - destruct o; try discriminate Hrup. cbn [run_op].
    destruct (eval (search_memory CATEGORY_USER_PREFERENCES preference_type
                      {[ "user_id" := PStr user_id ]} default_n_results) s)
      as [|first rest] eqn:Hsearch.
    + pose proof (record_user_preference_creates _ _ preference_value _
                    Hsearch) as Hs1.
      cbn zeta in Hs1.
      apply search_memory_nil in Hsearch as [Hzero|Hnone]; [lia|].
      fold (preferences_of user_id s) in Hnone.
      rewrite (preferences_of_snoc u s _ preference_type
                 {[ "user_id" := PStr user_id;
                    "value" := PStr preference_value;
                    "timestamp" := PStr (isoformat (clock s)) ]})
        by (rewrite Hs1; apply collection_insert_eq).
      rewrite lookup_insert_eq.
      destruct (decide (Some (PStr user_id) = Some (PStr u))) as [Heq|Hne].
      * injection Heq as <-. by rewrite Hnone.
      * rewrite app_nil_r. apply Hone.
    + pose proof (record_user_preference_updates _ _ preference_value _ _ _
                    Hsearch) as Hs1.
      cbn zeta in Hs1.
      rewrite (preferences_of_updated u s _ (id first)
                 {[ "value" := PStr preference_value;
                    "timestamp" := PStr (isoformat (clock s)) ]}).
      * rewrite length_fmap. apply Hone.
      * by rewrite lookup_insert_ne, lookup_singleton_ne.
      * rewrite Hs1. apply collection_insert_eq.
  - destruct (run_op_summary o s)
      as (ac & af & ak & ev & _ & _ & _ & _ & Hp & _).
    unfold preferences_of.
    rewrite (rows_ext _ _ s) by by apply Hp. apply Hone.
Qed.


(** ** C2 *)


(** ** Preferences over whole runs *)

(** X18: through the broker a user never comes to hold two preference
    records: if every user holds at most one (as in an empty store) and
    the store's search returns at least one match when there is one, then
    after any sequence of operations every user still holds at most one,
    whatever the types recorded. *)
Theorem at_most_one_preference_per_user (ops : list op) (s : Store) :
  (0 < default_n_results)%nat →
  (∀ u, (length (preferences_of u s) ≤ 1)%nat) →
  ∀ u, (length (preferences_of u (exec (run_ops ops) s)) ≤ 1)%nat.
Proof.
  intros Hn. revert s. induction ops as [|o ops IH]; intros s Hone u.
  - apply Hone.
  - unfold run_ops. rewrite exec_for_each_cons. fold (run_ops ops).
    apply IH. by apply run_op_one_preference.
Qed.

(** ** The bundle *)

(** X19: [process_message] writes one conversation record and one event
    and nothing else: the conversations are the earlier ones, unchanged,
    followed by the message with its metadata; the event log is the earlier
    one, unchanged, followed by the event of the message; the facts, the
    knowledge, the preferences and every other category are as before,
    only read. *)
Theorem process_message_frame (user_id message : string) (s : Store) :
  let s' := exec (process_message user_id message) s in
  let md := {[ "timestamp" := PStr (isoformat (clock s));
               "user_id" := PStr user_id;
               "speaker" := PStr "user";
               "epoch" := PInt (epoch s + 1) ]} in
  let ev_text := "User " +:+ user_id +:+ " said: " +:+ message in
  let ev_md := {[ "epoch" := PInt (epoch s + 1);
                  "user_id" := PStr user_id;
                  "message_type" := PStr "user_message" ]} in
  (∀ c, c ≠ CATEGORY_CONVERSATIONS → collection c s' = collection c s)
  ∧ collection CATEGORY_CONVERSATIONS s'
    = collection CATEGORY_CONVERSATIONS s ++ [(message, md)]
  ∧ events s' = events s ++ [(ev_text, ev_md)]
  ∧ length (collection CATEGORY_CONVERSATIONS s')
    = S (length (collection CATEGORY_CONVERSATIONS s))
  ∧ length (events s') = S (length (events s)).
Proof.
  intros s' md ev_text ev_md. subst s'. rewrite process_message_run.
  cbn zeta. fold md ev_text ev_md.
  split_and!.
  - intros c Hc. by rewrite collection_insert_ne.
  - apply collection_insert_eq.
  - reflexivity.
  - rewrite collection_insert_eq, length_app. cbn [length]. lia.
  - cbn [events]. rewrite length_app. cbn [length]. lia.
Qed.

(** X20: the bundle's history is never empty and ends with the message
    being processed, as a ["user"] turn; it has at most 5 turns. *)
Theorem bundle_history_ends_with_message (user_id message : string)
    (s : Store) :
  let history :=
    conversation_history (eval (process_message user_id message) s) in
  last history = Some (Turn (PStr "user") message)
  ∧ (1 ≤ length history ≤ 5)%nat.
Proof.
  intros history.
  assert (Hhistory : history
    = as_turn <$> drop (length (conversation_of user_id s) + 1 - 5)
        (conversation_of user_id s
         ++ [Memory (length (collection CATEGORY_CONVERSATIONS s)) message
               {[ "timestamp" := PStr (isoformat (clock s));
                  "user_id" := PStr user_id;
                  "speaker" := PStr "user";
                  "epoch" := PInt (epoch s + 1) ]}])).
  { subst history.
    change (conversation_history (eval (process_message user_id message) s))
      with (eval (get_conversation_history user_id 5)
              (exec (_ ← increment_epoch;
                     record_user_message user_id message) s)).
    rewrite get_conversation_history_last, conversation_of_recorded.
    rewrite length_app. reflexivity. }
  rewrite Hhistory. split.
  - rewrite fmap_last, last_drop_snoc by lia. reflexivity.
  - rewrite length_fmap, length_drop, length_app. cbn [length]. lia.
Qed.

(** ** Searching *)


(** ** A turn: a message and its response *)

(** X22: a message processed and the response recorded after it are the
    last two conversation records, in that order, and both carry the epoch
    of the turn (the epoch before the message, plus one); read with a
    limit of at least 2, the user's history ends with the two turns. *)
Theorem turn_is_recorded_in_order
    (user_id message response : string)
    (new_facts new_knowledge : option (list string)) (limit : nat)
    (s : Store) :
  (2 ≤ limit)%nat →
  let s2 := exec (record_response user_id response new_facts new_knowledge)
                 (exec (process_message user_id message) s) in
  (∃ md_message md_response,
      collection CATEGORY_CONVERSATIONS s2
      = collection CATEGORY_CONVERSATIONS s
        ++ [(message, md_message); (response, md_response)]
      ∧ md_message !! "epoch" = Some (PInt (epoch s + 1))
      ∧ md_response !! "epoch" = Some (PInt (epoch s + 1)))
  ∧ ∃ earlier,
      eval (get_conversation_history user_id limit) s2
      = earlier ++ [ Turn (PStr "user") message;
                     Turn (PStr "ord_gpt") response ].
Proof.
  intros Hlimit s2. subst s2.
  pose proof (process_message_run user_id message s) as Hs1.
  cbn zeta in Hs1.
  set (s1 := exec (process_message user_id message) s) in *.
  set (md1 := {[ "timestamp" := PStr (isoformat (clock s));
                 "user_id" := PStr user_id;
                 "speaker" := PStr "user";
                 "epoch" := PInt (epoch s + 1) ]} : gmap string pyval) in *.
  assert (Hconv1 : collection CATEGORY_CONVERSATIONS s1
                   = collection CATEGORY_CONVERSATIONS s ++ [(message, md1)])
    by (rewrite Hs1; apply collection_insert_eq).
  assert (He1 : epoch s1 = epoch s + 1) by (by rewrite Hs1).
  rewrite record_response_steps.
  pose proof (record_agent_response_run user_id response s1) as Hsr.
  cbn zeta in Hsr.
  set (sr := exec (record_agent_response user_id response) s1) in *.
  set (md2 := {[ "timestamp" := PStr (isoformat (clock s1));
                 "user_id" := PStr user_id;
                 "speaker" := PStr "ord_gpt";
                 "epoch" := PInt (epoch s1) ]} : gmap string pyval) in *.
  destruct (for_each_record_unique_appends CATEGORY_BITCOIN_FACTS
              "conversation" (truthy new_facts) sr)
    as (af & _ & _ & Hcf & _).
  set (sf := exec (for_each _ (truthy new_facts)) sr) in *.
  destruct (for_each_record_unique_appends CATEGORY_ORDINALS_KNOWLEDGE
              "conversation" (truthy new_knowledge) sf)
    as (ak & _ & _ & Hck & _).
  set (s2 := exec (for_each _ (truthy new_knowledge)) sf) in *.
  assert (Hconv2 : collection CATEGORY_CONVERSATIONS s2
                   = collection CATEGORY_CONVERSATIONS s1
                     ++ [(response, md2)]).
  { rewrite Hck, Hcf by done. rewrite Hsr. apply collection_insert_eq. }
  split.
  - exists md1, md2. split_and!.
    + by rewrite Hconv2, Hconv1, <- app_assoc.
    + subst md1. by rewrite !lookup_insert_ne, lookup_singleton_eq.
    + subst md2. rewrite He1.
      by rewrite !lookup_insert_ne, lookup_singleton_eq.
  - rewrite get_conversation_history_last.
    rewrite (conversation_of_snoc user_id s1 s2 response md2 Hconv2).
    rewrite (conversation_of_snoc user_id s s1 message md1 Hconv1).
    rewrite !decide_True
      by (subst md1 md2; by rewrite lookup_insert_ne, lookup_insert_eq).
    rewrite <- app_assoc. cbn [app].
    set (m1 := Memory _ message md1). set (m2 := Memory _ response md2).
    rewrite length_app. cbn [length].
    rewrite drop_app_le by lia.
    exists (as_turn <$> drop (length (conversation_of user_id s) + 2 - limit)
                            (conversation_of user_id s)).
    by rewrite fmap_app.
Qed.

(** X23: a seeded fact is not learned twice: after [initialize_memory]
    has seeded (the knowledge category was empty), [record_bitcoin_fact]
    of one of the seeded Bitcoin facts, at least 0.85 similar to itself,
    leaves the Bitcoin-facts category as the seeding left it. *)
Theorem seeded_fact_not_recorded_again (fact source : string) (s : Store) :
  collection CATEGORY_ORDINALS_KNOWLEDGE s = [] →
  fact ∈ bitcoin_facts →
  (85 # 100 <= similarity fact fact)%Q →
  let s1 := exec initialize_memory s in
  collection CATEGORY_BITCOIN_FACTS (exec (record_bitcoin_fact fact source) s1)
  = collection CATEGORY_BITCOIN_FACTS s1.
Proof.
  intros Hk Hfact Hself s1. subst s1.
  assert (Hz : length (collection CATEGORY_ORDINALS_KNOWLEDGE s) = 0%nat)
    by by rewrite Hk.
  destruct (initialize_memory_seeds s Hz) as (Hfacts & _).
  set (s1 := exec initialize_memory s) in *. clearbody s1.
  rewrite <- (seeded_texts bitcoin_facts (clock s)) in Hfact.
  apply list_elem_of_fmap in Hfact as ([t md] & Ht & Hrow).
  cbn [fst] in Ht. subst t.
  assert (Hin : (fact, md) ∈ collection CATEGORY_BITCOIN_FACTS s1)
    by (rewrite Hfacts; apply elem_of_app; by right).
  apply list_elem_of_lookup in Hin as [i Hi].
  rewrite record_bitcoin_fact_unique.
  rewrite (record_unique_duplicate _ _ _ s1 (Memory i fact md)).
  - apply collection_same.
  - by apply elem_of_rows.
  - unfold near_duplicate. cbn [document]. by apply Qle_bool_iff.
Qed.

End BrokerCoverage.

(** ** The theorems at concrete stores *)

(** C5 at the example store library, whose [search_memory] default cap
    is 5. *)
Lemma record_user_preference_overwrites_other_type_witness :
  (0 < @default_n_results demo_params)%nat
  ∧ (let s0 := exec (record_user_preference (lib := demo_params)
                       "u1" "color" "red") empty_store in
     let s2 := exec (_ ← record_user_preference (lib := demo_params)
                           "u1" "topic" "A";
                     record_user_preference (lib := demo_params)
                       "u1" "topic" "B") s0 in
     preferences_of_type "u1" "topic" s0 = []
     ∧ preferences_of_type "u1" "topic" s2 = []
     ∧ rows CATEGORY_USER_PREFERENCES s2
       = [ Memory 0 "color"
             {[ "user_id" := PStr "u1"; "value" := PStr "B";
                "timestamp" := PStr (@isoformat demo_params 2) ]} ]).
Proof.
  split; [cbn; lia|].
  apply (@record_user_preference_overwrites_other_type demo_params).
  cbn. lia.
Defined.

(** C4 at the store in which ["u1"] holds the preference ["color"] only:
    recording ["topic"] creates nothing. *)
Lemma record_user_preference_misses_type_witness :
  (0 < @default_n_results demo_params)%nat
  ∧ preferences_of "u1" one_preference_store ≠ []
  ∧ preferences_of_type "u1" "topic" one_preference_store = []
  ∧ (let s' := exec (record_user_preference (lib := demo_params)
                       "u1" "topic" "A") one_preference_store in
     preferences_of_type "u1" "topic" s' = []
     ∧ texts CATEGORY_USER_PREFERENCES s'
       = texts CATEGORY_USER_PREFERENCES one_preference_store
     ∧ ∃ m md',
         m ∈ preferences_of "u1" one_preference_store
         ∧ document m ≠ "topic"
         ∧ collection CATEGORY_USER_PREFERENCES s' !! id m
           = Some (document m, md')
         ∧ md' !! "value" = Some (PStr "A")).
Proof.
  assert (Hn : (0 < @default_n_results demo_params)%nat) by (cbn; lia).
  assert (Hsome : preferences_of "u1" one_preference_store ≠ [])
    by (vm_compute; discriminate).
  assert (Hnone : preferences_of_type "u1" "topic" one_preference_store = [])
    by (vm_compute; reflexivity).
  split; [exact Hn|]. split; [exact Hsome|]. split; [exact Hnone|].
  exact (@record_user_preference_misses_type demo_params "u1" "topic" "A"
           one_preference_store Hn Hsome Hnone).
Defined.

(** C7 at a store that already holds the very same fact. *)
Lemma record_bitcoin_fact_near_duplicate_witness :
  (∃ m, m ∈ rows CATEGORY_BITCOIN_FACTS one_fact_store
        ∧ (85 # 100
           <= @similarity demo_params
                "Bitcoin has a maximum supply of 21 million coins."
                (document m))%Q)
  ∧ (eval (count_memories CATEGORY_BITCOIN_FACTS)
       (exec (record_bitcoin_fact (lib := demo_params)
                "Bitcoin has a maximum supply of 21 million coins."
                "chat") one_fact_store)
     ≤ eval (count_memories CATEGORY_BITCOIN_FACTS) one_fact_store)%nat.
Proof.
  assert (Hdup : ∃ m, m ∈ rows CATEGORY_BITCOIN_FACTS one_fact_store
        ∧ (85 # 100
           <= @similarity demo_params
                "Bitcoin has a maximum supply of 21 million coins."
                (document m))%Q).
  { exists (Memory 0 "Bitcoin has a maximum supply of 21 million coins."
              {[ "timestamp" := PStr "t0"; "source" := PStr "conversation";
                 "epoch" := PInt 0 ]}).
    split.
    - apply elem_of_rows. vm_compute. reflexivity.
    - vm_compute. discriminate. }
  split; [exact Hdup|].
  apply (@record_bitcoin_fact_near_duplicate demo_params
           "Bitcoin has a maximum supply of 21 million coins." "chat"
           one_fact_store Hdup).
Defined.

(** C10 on the empty store with one supplied fact: the fact is stored with
    source ["conversation"], after the response. *)
Lemma record_response_effects_witness :
  collection CATEGORY_BITCOIN_FACTS
    (exec (record_response (lib := demo_params) "u1" "Noted."
             (Some ["Bitcoin has 100 million satoshis per coin"]) None)
          empty_store)
  = [ ("Bitcoin has 100 million satoshis per coin",
       {[ "timestamp" := PStr "t1"; "source" := PStr "conversation";
          "epoch" := PInt 0 ]}) ]
  ∧ effects_since empty_store
      (exec (record_response (lib := demo_params) "u1" "Noted."
               (Some ["Bitcoin has 100 million satoshis per coin"]) None)
            empty_store)
    = [ Created CATEGORY_CONVERSATIONS 0 "Noted."
          {[ "timestamp" := PStr "t0"; "user_id" := PStr "u1";
             "speaker" := PStr "ord_gpt"; "epoch" := PInt 0 ]};
        EventLogged "Ord GPT responded to u1: Noted...."
          {[ "epoch" := PInt 0; "user_id" := PStr "u1";
             "message_type" := PStr "agent_response" ]};
        Created CATEGORY_BITCOIN_FACTS 0
          "Bitcoin has 100 million satoshis per coin"
          {[ "timestamp" := PStr "t1"; "source" := PStr "conversation";
             "epoch" := PInt 0 ]} ].
Proof.
  destruct (@record_response_effects demo_params "u1" "Noted."
              (Some ["Bitcoin has 100 million satoshis per coin"]) None
              empty_store)
    as (Hjournal & _ & _ & Hfacts & _).
  split.
  - rewrite Hfacts. vm_compute. reflexivity.
  - unfold effects_since. rewrite Hjournal. vm_compute. reflexivity.
Defined.

(** ** Where the specification's wording fails on the code *)

(** C8: the conversation record of an agent response has speaker
    ["ord_gpt"], not ["agent"]. *)
Lemma agent_response_speaker_is_ord_gpt :
  ¬ spec_agent_speaker (lib := demo_params) "u1" "Hello" empty_store.
Proof.
  intros (md & Hrow & Hspeaker).
  rewrite record_agent_response_run in Hrow. cbn zeta in Hrow.
  rewrite collection_insert_eq in Hrow.
  apply app_inj_tail in Hrow as [_ Hpair]. injection Hpair as <-.
  vm_compute in Hspeaker. discriminate Hspeaker.
Qed.


(** ** The further theorems at concrete stores *)

(** X2 with limit 3 on the empty store. *)
Lemma history_ends_with_recorded_message_witness :
  (0 < 3)%nat
  ∧ last (eval (get_conversation_history "u1" 3)
            (exec (record_user_message (lib := demo_params) "u1" "hello")
                  empty_store))
    = Some (Turn (PStr "user") "hello")
  ∧ last (eval (get_conversation_history "u1" 3)
            (exec (record_agent_response (lib := demo_params) "u1" "hello")
                  empty_store))
    = Some (Turn (PStr "ord_gpt") "hello").
Proof.
  split; [lia|].
  apply (@history_ends_with_recorded_message demo_params
           "u1" "hello" 3 empty_store).
  lia.
Defined.

(** X3 for the users ["u1"] and ["u2"]. *)
Lemma history_of_other_user_unchanged_witness :
  "u2" ≠ "u1"
  ∧ eval (get_conversation_history "u1" 5)
         (exec (record_user_message (lib := demo_params) "u2" "hello")
               one_fact_store)
    = eval (get_conversation_history "u1" 5) one_fact_store
  ∧ eval (get_conversation_history "u1" 5)
         (exec (record_agent_response (lib := demo_params) "u2" "hello")
               one_fact_store)
    = eval (get_conversation_history "u1" 5) one_fact_store.
Proof.
  split; [discriminate|].
  apply (@history_of_other_user_unchanged demo_params
           "u1" "u2" "hello" 5 one_fact_store).
  discriminate.
Defined.

(** X6 on the empty store. *)
Lemma first_preference_reads_back_witness :
  preferences_of "u1" empty_store = []
  ∧ eval (get_user_preferences (lib := demo_params) "u1")
         (exec (record_user_preference (lib := demo_params)
                  "u1" "topic" "A") empty_store)
    = {[ "topic" := PStr "A" ]}.
Proof.
  split; [reflexivity|].
  apply (@first_preference_reads_back demo_params "u1" "topic" "A"
           empty_store).
  reflexivity.
Defined.

(** X7 on the store with one preference: recording ["topic"] sets the
    value read under ["color"]. *)
Lemma only_preference_takes_value_witness :
  (0 < @default_n_results demo_params)%nat
  ∧ preferences_of "u1" one_preference_store
    = [ Memory 0 "color"
          {[ "user_id" := PStr "u1"; "value" := PStr "red";
             "timestamp" := PStr "t0" ]} ]
  ∧ eval (get_user_preferences (lib := demo_params) "u1")
         (exec (record_user_preference (lib := demo_params)
                  "u1" "topic" "A") one_preference_store)
    = {[ "color" := PStr "A" ]}.
Proof.
  assert (Hn : (0 < @default_n_results demo_params)%nat) by (cbn; lia).
  assert (Hone : preferences_of "u1" one_preference_store
    = [ Memory 0 "color"
          {[ "user_id" := PStr "u1"; "value" := PStr "red";
             "timestamp" := PStr "t0" ]} ])
    by (vm_compute; reflexivity).
  split; [exact Hn|]. split; [exact Hone|].
  apply (@only_preference_takes_value demo_params "u1" "topic" "A"
           one_preference_store _ Hn Hone).
Defined.

(** X8 at a store holding a different fact. *)
Lemma record_bitcoin_fact_novel_witness :
  (∀ m, m ∈ rows CATEGORY_BITCOIN_FACTS one_fact_store →
        (@similarity demo_params
           "Bitcoin blocks are mined approximately every 10 minutes."
           (document m) < 85 # 100)%Q)
  ∧ (let s' := exec (record_bitcoin_fact (lib := demo_params)
                       "Bitcoin blocks are mined approximately every 10 minutes."
                       "chat") one_fact_store in
     collection CATEGORY_BITCOIN_FACTS s'
       = collection CATEGORY_BITCOIN_FACTS one_fact_store
         ++ [ ("Bitcoin blocks are mined approximately every 10 minutes.",
               {[ "timestamp" :=
                    PStr (@isoformat demo_params (clock one_fact_store));
                  "source" := PStr "chat";
                  "epoch" := PInt (epoch one_fact_store) ]}) ]
     ∧ eval (count_memories CATEGORY_BITCOIN_FACTS) s'
       = S (eval (count_memories CATEGORY_BITCOIN_FACTS) one_fact_store)).
Proof.
  assert (Hfar : ∀ m, m ∈ rows CATEGORY_BITCOIN_FACTS one_fact_store →
        (@similarity demo_params
           "Bitcoin blocks are mined approximately every 10 minutes."
           (document m) < 85 # 100)%Q).
  { intros m Hm.
    assert (Hrows : rows CATEGORY_BITCOIN_FACTS one_fact_store
      = [ Memory 0 "Bitcoin has a maximum supply of 21 million coins."
            {[ "timestamp" := PStr "t0"; "source" := PStr "conversation";
               "epoch" := PInt 0 ]} ])
      by (vm_compute; reflexivity).
    rewrite Hrows in Hm. apply list_elem_of_singleton in Hm. subst m.
    vm_compute. reflexivity. }
  split; [exact Hfar|].
  exact (@record_bitcoin_fact_novel demo_params
           "Bitcoin blocks are mined approximately every 10 minutes."
           "chat" one_fact_store Hfar).
Defined.

(** X10 with texts similar only when equal. *)
Lemma record_bitcoin_fact_twice_witness :
  (85 # 100 <= @similarity demo_params "Bitcoin is scarce."
                  "Bitcoin is scarce.")%Q
  ∧ (let s1 := exec (record_bitcoin_fact (lib := demo_params)
                       "Bitcoin is scarce." "conversation") empty_store in
     let s2 := exec (record_bitcoin_fact (lib := demo_params)
                       "Bitcoin is scarce." "chat") s1 in
     collection CATEGORY_BITCOIN_FACTS s2
       = collection CATEGORY_BITCOIN_FACTS s1
     ∧ (length (collection CATEGORY_BITCOIN_FACTS s2)
        ≤ S (length (collection CATEGORY_BITCOIN_FACTS empty_store)))%nat).
Proof.
  assert (Hself : (85 # 100 <= @similarity demo_params "Bitcoin is scarce."
                                  "Bitcoin is scarce.")%Q)
    by (vm_compute; discriminate).
  split; [exact Hself|].
  exact (@record_bitcoin_fact_twice demo_params "Bitcoin is scarce."
           "conversation" "chat" empty_store Hself).
Defined.

(** X13 on the empty store. *)
Lemma first_bundle_after_fresh_start_witness :
  collection CATEGORY_BITCOIN_FACTS empty_store = []
  ∧ collection CATEGORY_ORDINALS_KNOWLEDGE empty_store = []
  ∧ (let ctx := eval (process_message (lib := demo_params) "u1"
                        "Tell me about Ordinals")
                     (exec (initialize_memory (lib := demo_params))
                           empty_store) in
     current_epoch ctx = 1
     ∧ length (relevant_bitcoin_facts ctx) = 3%nat
     ∧ relevant_bitcoin_facts ctx ⊆ bitcoin_facts
     ∧ length (relevant_ordinals_knowledge ctx) = 3%nat
     ∧ relevant_ordinals_knowledge ctx ⊆ ordinals_knowledge).
Proof.
  split; [reflexivity|]. split; [reflexivity|].
  exact (@first_bundle_after_fresh_start demo_params "u1"
           "Tell me about Ordinals" empty_store eq_refl eq_refl).
Defined.

Lemma demo_session_no_initialization : InitializeMemory ∉ demo_session.
Proof.
  unfold demo_session. rewrite !not_elem_of_cons.
  split_and!; try discriminate. apply not_elem_of_nil.
Defined.

(** X14 on the short session: two messages processed, epoch 2. *)
Lemma epoch_counts_processed_messages_witness :
  (InitializeMemory ∉ demo_session)
  ∧ epoch (exec (run_ops (lib := demo_params) demo_session) empty_store)
    = 0 + Z.of_nat (processed demo_session).
Proof.
  split; [exact demo_session_no_initialization|].
  apply (@epoch_counts_processed_messages demo_params demo_session
           empty_store demo_session_no_initialization).
Defined.

(** X17 on the session without the preference, from a store that holds
    one. *)
Lemma only_record_user_preference_writes_preferences_witness :
  Forall (λ o, is_record_user_preference o = false) demo_chat
  ∧ collection CATEGORY_USER_PREFERENCES
      (exec (run_ops (lib := demo_params) demo_chat) one_preference_store)
    = collection CATEGORY_USER_PREFERENCES one_preference_store.
Proof.
  assert (Hchat : Forall (λ o, is_record_user_preference o = false)
                         demo_chat)
    by (unfold demo_chat; repeat constructor).
  split; [exact Hchat|].
  apply (@only_record_user_preference_writes_preferences demo_params
           demo_chat one_preference_store Hchat).
Defined.

(** X18 on the short session from the empty store. *)
Lemma at_most_one_preference_per_user_witness :
  (0 < @default_n_results demo_params)%nat
  ∧ (∀ u, (length (preferences_of u empty_store) ≤ 1)%nat)
  ∧ (∀ u, (length (preferences_of u
                     (exec (run_ops (lib := demo_params) demo_session)
                           empty_store)) ≤ 1)%nat).
Proof.
  assert (Hn : (0 < @default_n_results demo_params)%nat) by (cbn; lia).
  assert (Hone : ∀ u, (length (preferences_of u empty_store) ≤ 1)%nat).
  { intros u. change (preferences_of u empty_store) with (@nil memory).
    cbn [length]. lia. }
  split; [exact Hn|]. split; [exact Hone|].
  apply (@at_most_one_preference_per_user demo_params demo_session
           empty_store Hn Hone).
Defined.

(** X22 with limit 5 on the empty store, nothing learned. *)
Lemma turn_is_recorded_in_order_witness :
  (2 ≤ 5)%nat
  ∧ (let s2 := exec (record_response (lib := demo_params) "u1" "Hi."
                       None None)
                    (exec (process_message (lib := demo_params) "u1" "Hello")
                          empty_store) in
     (∃ md_message md_response,
         collection CATEGORY_CONVERSATIONS s2
         = collection CATEGORY_CONVERSATIONS empty_store
           ++ [("Hello", md_message); ("Hi.", md_response)]
         ∧ md_message !! "epoch" = Some (PInt (epoch empty_store + 1))
         ∧ md_response !! "epoch" = Some (PInt (epoch empty_store + 1)))
     ∧ ∃ earlier,
         eval (get_conversation_history "u1" 5) s2
         = earlier ++ [ Turn (PStr "user") "Hello";
                        Turn (PStr "ord_gpt") "Hi." ]).
Proof.
  assert (Hlimit : (2 ≤ 5)%nat) by lia.
  split; [exact Hlimit|].
  exact (@turn_is_recorded_in_order demo_params "u1" "Hello" "Hi."
           None None 5 empty_store Hlimit).
Defined.

Lemma seeded_fact_is_seeded :
  "Bitcoin has a maximum supply of 21 million coins." ∈ bitcoin_facts.
Proof. unfold bitcoin_facts. rewrite !elem_of_cons. right. by left. Defined.

(** X23 for the second seeded fact, on the empty store. *)
Lemma seeded_fact_not_recorded_again_witness :
  collection CATEGORY_ORDINALS_KNOWLEDGE empty_store = []
  ∧ "Bitcoin has a maximum supply of 21 million coins." ∈ bitcoin_facts
  ∧ (85 # 100
     <= @similarity demo_params
          "Bitcoin has a maximum supply of 21 million coins."
          "Bitcoin has a maximum supply of 21 million coins.")%Q
  ∧ (let s1 := exec (initialize_memory (lib := demo_params)) empty_store in
     collection CATEGORY_BITCOIN_FACTS
       (exec (record_bitcoin_fact (lib := demo_params)
                "Bitcoin has a maximum supply of 21 million coins."
                "conversation") s1)
     = collection CATEGORY_BITCOIN_FACTS s1).
Proof.
  assert (Hself : (85 # 100
     <= @similarity demo_params
          "Bitcoin has a maximum supply of 21 million coins."
          "Bitcoin has a maximum supply of 21 million coins.")%Q)
    by (vm_compute; discriminate).
  split; [reflexivity|]. split; [exact seeded_fact_is_seeded|].
  split; [exact Hself|].
  exact (@seeded_fact_not_recorded_again demo_params
           "Bitcoin has a maximum supply of 21 million coins."
           "conversation" empty_store eq_refl seeded_fact_is_seeded Hself).
Defined.
